(** * XPT2046 resistive touch driver (xpt2046.c / xpt2046.h)

    A shallow embedding of the acquisition pipeline of the touch driver:
    pressure gate, median filter, variance gate, calibration mapper, jump
    rejection, moving average and the [XPT2046_Read] state machine.

    Conventions.
    - C integers are values of [Z]; every store into a fixed-width object
      goes through the matching conversion ([to_int16], [to_uint8], ...).
      The target is a 32-bit ARM built with GCC: [int] is 32 bits wide, an
      out-of-range conversion to a signed type wraps, and [>>] on a
      negative [int] is an arithmetic shift.
    - The file-scope statics of xpt2046.c are the fields of [xpt2046].
    - The SPI transport is an oracle: the [n]-th exchange of the run, sent
      with command byte [cmd], receives the two bytes [spi n cmd].
    - Undefined behaviour of C (division buf_y zero, signed overflow of [int],
      an array access out of bounds, a read of an unwritten local) is the
      outcome [None] of the monad [M]. *)

From Stdlib Require Import ZArith Lia.
From stdpp Require Import base numbers list sorting.

Local Open Scope Z_scope.

(** ** Fixed-width integers *)

Module CInt.

Definition INT_MIN : Z := -2147483648.
Definition INT_MAX : Z := 2147483647.

Definition to_uint8 (v : Z) : Z := v mod 256.
Definition to_uint16 (v : Z) : Z := v mod 65536.
Definition to_uint32 (v : Z) : Z := v mod 4294967296.
(** Conversion to [int16_t]: reduction modulo 2^16 into [-32768, 32767]. *)
Definition to_int16 (v : Z) : Z := (v + 32768) mod 65536 - 32768.

Definition is_int16 (v : Z) : Prop := -32768 <= v <= 32767.
Definition is_uint16 (v : Z) : Prop := 0 <= v <= 65535.
Definition is_uint8 (v : Z) : Prop := 0 <= v <= 255.

(** A value of type [int]: defined only when it is representable. *)
Definition int_of (v : Z) : option Z :=
  if (INT_MIN <=? v) && (v <=? INT_MAX) then Some v else None.

(** Unsigned 32-bit division. *)
Definition udiv32 (a b : Z) : option Z :=
  if b =? 0 then None else Some (a / b).

End CInt.
Export CInt.

(** ** Configuration (xpt2046.h, st7789.h) *)

Definition XPT2046_X_MIN : Z := 160.
Definition XPT2046_Y_MIN : Z := 215.
Definition XPT2046_X_MAX : Z := 3870.
Definition XPT2046_Y_MAX : Z := 3910.

Definition XPT2046_X_INV : Z := 0.
Definition XPT2046_Y_INV : Z := 0.
Definition XPT2046_XY_SWAP : Z := 0.

Definition XPT2046_TOUCH_THRESHOLD : Z := 500.
Definition XPT2046_READ_SAMPLES : nat := 7.
Definition XPT2046_AVG_SAMPLES : nat := 10.

(** ST7789_240x320 with ST7789_ROTATION 3 (landscape). *)
Definition ST7789_WIDTH : Z := 320.
Definition ST7789_HEIGHT : Z := 240.

(** Private defines of xpt2046.c. *)
Definition CMD_X_READ : Z := 0x90.
Definition CMD_Y_READ : Z := 0xD0.
Definition CMD_Z1_READ : Z := 0xB0.
Definition CMD_Z2_READ : Z := 0xC0.

Definition XPT2046_JUMP_THRESHOLD : Z := 80.
Definition XPT2046_MAX_INVALID_SAMPLES : Z := 3.

(** ** Driver state *)

Record calibration_t : Type := Calibration {
  x_min : Z;
  y_min : Z;
  x_max : Z;
  y_max : Z
}.

Record xpt2046 : Type := Xpt2046 {
  avg_buf_x : list Z;
  avg_buf_y : list Z;
  avg_count : Z;
  calibration : calibration_t;
  screen_width : Z;
  screen_height : Z;
  last_valid_x : Z;
  last_valid_y : Z;
  invalid_count : Z;
  (** number of SPI exchanges performed so far *)
  spi_count : nat
}.

Definition set_avg_buf_x (v : list Z) (s : xpt2046) : xpt2046 :=
  Xpt2046 v (avg_buf_y s) (avg_count s) (calibration s) (screen_width s)
    (screen_height s) (last_valid_x s) (last_valid_y s) (invalid_count s)
    (spi_count s).
Definition set_avg_buf_y (v : list Z) (s : xpt2046) : xpt2046 :=
  Xpt2046 (avg_buf_x s) v (avg_count s) (calibration s) (screen_width s)
    (screen_height s) (last_valid_x s) (last_valid_y s) (invalid_count s)
    (spi_count s).
Definition set_avg_count (v : Z) (s : xpt2046) : xpt2046 :=
  Xpt2046 (avg_buf_x s) (avg_buf_y s) v (calibration s) (screen_width s)
    (screen_height s) (last_valid_x s) (last_valid_y s) (invalid_count s)
    (spi_count s).
Definition set_calibration (v : calibration_t) (s : xpt2046) : xpt2046 :=
  Xpt2046 (avg_buf_x s) (avg_buf_y s) (avg_count s) v (screen_width s)
    (screen_height s) (last_valid_x s) (last_valid_y s) (invalid_count s)
    (spi_count s).
Definition set_screen_width (v : Z) (s : xpt2046) : xpt2046 :=
  Xpt2046 (avg_buf_x s) (avg_buf_y s) (avg_count s) (calibration s) v
    (screen_height s) (last_valid_x s) (last_valid_y s) (invalid_count s)
    (spi_count s).
Definition set_screen_height (v : Z) (s : xpt2046) : xpt2046 :=
  Xpt2046 (avg_buf_x s) (avg_buf_y s) (avg_count s) (calibration s)
    (screen_width s) v (last_valid_x s) (last_valid_y s) (invalid_count s)
    (spi_count s).
Definition set_last_valid_x (v : Z) (s : xpt2046) : xpt2046 :=
  Xpt2046 (avg_buf_x s) (avg_buf_y s) (avg_count s) (calibration s)
    (screen_width s) (screen_height s) v (last_valid_y s) (invalid_count s)
    (spi_count s).
Definition set_last_valid_y (v : Z) (s : xpt2046) : xpt2046 :=
  Xpt2046 (avg_buf_x s) (avg_buf_y s) (avg_count s) (calibration s)
    (screen_width s) (screen_height s) (last_valid_x s) v (invalid_count s)
    (spi_count s).
Definition set_invalid_count (v : Z) (s : xpt2046) : xpt2046 :=
  Xpt2046 (avg_buf_x s) (avg_buf_y s) (avg_count s) (calibration s)
    (screen_width s) (screen_height s) (last_valid_x s) (last_valid_y s) v
    (spi_count s).
Definition set_spi_count (v : nat) (s : xpt2046) : xpt2046 :=
  Xpt2046 (avg_buf_x s) (avg_buf_y s) (avg_count s) (calibration s)
    (screen_width s) (screen_height s) (last_valid_x s) (last_valid_y s)
    (invalid_count s) v.

(** The static initialisers of xpt2046.c. *)
Definition initial_state : xpt2046 := {|
  avg_buf_x := replicate XPT2046_AVG_SAMPLES 0;
  avg_buf_y := replicate XPT2046_AVG_SAMPLES 0;
  avg_count := 0;
  calibration := Calibration XPT2046_X_MIN XPT2046_Y_MIN XPT2046_X_MAX XPT2046_Y_MAX;
  screen_width := ST7789_WIDTH;
  screen_height := ST7789_HEIGHT;
  last_valid_x := -1;
  last_valid_y := -1;
  invalid_count := 0;
  spi_count := 0
|}.

(** ** The monad of driver code: state, and [None] for undefined behaviour *)

Definition M (A : Type) : Type := xpt2046 -> option (A * xpt2046).

Definition ret {A} (a : A) : M A := fun s => Some (a, s).
Definition bind {A B} (m : M A) (k : A -> M B) : M B :=
  fun s => match m s with
           | Some (a, s') => k a s'
           | None => None
           end.
Definition get : M xpt2046 := fun s => Some (s, s).
Definition modify (f : xpt2046 -> xpt2046) : M unit := fun s => Some (tt, f s).
(** Lifting a partial pure computation: [None] is undefined behaviour. *)
Definition defined {A} (o : option A) : M A :=
  fun s => match o with Some a => Some (a, s) | None => None end.

Declare Scope drv_scope.
Delimit Scope drv_scope with drv.
Notation "x <- m ;; k" := (bind m (fun x => k))
  (at level 20, m at level 99, k at level 200, only parsing) : drv_scope.
Notation "' pat <- m ;; k" := (bind m (fun x => match x with pat => k end))
  (at level 20, pat pattern, m at level 99, k at level 200, only parsing)
  : drv_scope.
Notation "m ;; k" := (bind m (fun _ => k))
  (at level 100, k at level 200, only parsing, right associativity)
  : drv_scope.
Local Open Scope drv_scope.

(** ** Median filter (xpt2046.c, [median_filter]) *)

(** The body of the inner loop at index [j]: compare [temp[j]] with
    [temp[j + 1]] and exchange them when out of order. *)
Definition compare_swap (temp : list Z) (j : nat) : list Z :=
  match temp !! j, temp !! S j with
  | Some a, Some b =>
      if a >? b then <[S j := a]> (<[j := b]> temp) else temp
  | _, _ => temp
  end.

(** [for (j = j0; j < j0 + n; j++)]: [n] iterations are left. *)
Fixpoint inner_loop (n : nat) (j : nat) (temp : list Z) : list Z :=
  match n with
  | O => temp
  | S n' => inner_loop n' (S j) (compare_swap temp j)
  end.

(** [for (i = i0; i < size - 1; i++)]: [n] iterations are left; the inner
    loop runs [j] over [0 .. size - i - 2]. *)
Fixpoint outer_loop (n : nat) (i : nat) (size : nat) (temp : list Z) : list Z :=
  match n with
  | O => temp
  | S n' => outer_loop n' (S i) size (inner_loop (size - i - 1) 0 temp)
  end.

Definition bubble_sort (temp : list Z) (size : nat) : list Z :=
  outer_loop (size - 1) 0 size temp.

(** [temp] is a local array of [XPT2046_READ_SAMPLES] elements: copying
    [size] elements is defined only when they fit, and when [data] has that
    many.  Only the first [size] cells of [temp] are ever written, so [temp]
    is modelled buf_y that prefix; [temp[size / 2]] with [size = 0] reads a
    cell that was never written. *)
Definition median_filter (data : list Z) (size : nat) : option Z :=
  if decide (size <= XPT2046_READ_SAMPLES /\ size <= length data)%nat then
    let temp := take size data in
    let temp := bubble_sort temp size in
    temp !! (size / 2)%nat
  else None.

(** ** Array cells and C division *)

(** A store into cell [i] of an array: defined only within its bounds. *)
Definition array_set (a : list Z) (i : nat) (v : Z) : option (list Z) :=
  if decide (i < length a)%nat then Some (<[i := v]> a) else None.

(** Division of two [int]s: truncation towards zero. *)
Definition sdiv (a b : Z) : option Z :=
  if b =? 0 then None else int_of (Z.quot a b).

(** [memset(buf, 0, sizeof(buf))] on an averaging buffer. *)
Definition zeroed : list Z := replicate XPT2046_AVG_SAMPLES 0.

(** ** Calibration mapper ([XPT2046_ApplyCalibration]) *)

Definition XPT2046_ApplyCalibration (x y : Z) : M (Z * Z) :=
  s <- get ;;
  let c := calibration s in
  (* #if XPT2046_XY_SWAP != 0 *)
  let '(x, y) := if XPT2046_XY_SWAP =? 0 then (x, y) else (y, x) in
  let x := if x <? x_min c then x_min c else x in
  let y := if y <? y_min c then y_min c else y in
  let x := if x >? x_max c then x_max c else x in
  let y := if y >? y_max c then y_max c else y in
  let x := to_int16 (x - x_min c) in
  let y := to_int16 (y - y_min c) in
  (* the product and the quotient are computed in uint32_t *)
  qx <- defined (udiv32 (to_uint32 (to_uint32 x * screen_width s))
                        (to_uint32 (x_max c - x_min c))) ;;
  let x := to_int16 qx in
  qy <- defined (udiv32 (to_uint32 (to_uint32 y * screen_height s))
                        (to_uint32 (y_max c - y_min c))) ;;
  let y := to_int16 qy in
  (* #if XPT2046_X_INV != 0 *)
  let x := if XPT2046_X_INV =? 0 then x
           else to_int16 (screen_width s - 1 - x) in
  (* #if XPT2046_Y_INV != 0 *)
  let y := if XPT2046_Y_INV =? 0 then y
           else to_int16 (screen_height s - 1 - y) in
  let x := if x <? 0 then 0 else x in
  let y := if y <? 0 then 0 else y in
  let x := if x >=? to_int16 (screen_width s)
           then to_int16 (screen_width s - 1) else x in
  let y := if y >=? to_int16 (screen_height s)
           then to_int16 (screen_height s - 1) else y in
  ret (x, y).

(** ** Moving average ([XPT2046_Average]) *)

(** [for (i = n; i > 0; i--) { buf_x[i] = buf_x[i - 1]; buf_y[i] = buf_y[i - 1]; }] *)
Fixpoint shift_loop (n : nat) (buf_x buf_y : list Z) : option (list Z * list Z) :=
  match n with
  | O => Some (buf_x, buf_y)
  | S i' =>
      vx ← buf_x !! i';
      buf_x' ← array_set buf_x (S i') vx;
      vy ← buf_y !! i';
      buf_y' ← array_set buf_y (S i') vy;
      shift_loop i' buf_x' buf_y'
  end.

(** [for (; i < i + n; i++) { sum_x += buf_x[i]; sum_y += buf_y[i]; }] *)
Fixpoint sum_loop (n : nat) (i : nat) (buf_x buf_y : list Z) (sum_x sum_y : Z)
  : option (Z * Z) :=
  match n with
  | O => Some (sum_x, sum_y)
  | S n' =>
      vx ← buf_x !! i;
      sum_x' ← int_of (sum_x + vx);
      vy ← buf_y !! i;
      sum_y' ← int_of (sum_y + vy);
      sum_loop n' (S i) buf_x buf_y sum_x' sum_y'
  end.

Definition XPT2046_Average (x y : Z) : M (Z * Z) :=
  s <- get ;;
  '(buf_x, buf_y) <- defined (shift_loop (XPT2046_AVG_SAMPLES - 1)
                          (avg_buf_x s) (avg_buf_y s)) ;;
  buf_x <- defined (array_set buf_x 0 x) ;;
  buf_y <- defined (array_set buf_y 0 y) ;;
  modify (set_avg_buf_x buf_x) ;;
  modify (set_avg_buf_y buf_y) ;;
  (if avg_count s <? Z.of_nat XPT2046_AVG_SAMPLES
   then modify (set_avg_count (to_uint8 (avg_count s + 1)))
   else ret tt) ;;
  s <- get ;;
  '(sum_x, sum_y) <- defined (sum_loop (Z.to_nat (avg_count s)) 0
                                (avg_buf_x s) (avg_buf_y s) 0 0) ;;
  qx <- defined (sdiv sum_x (avg_count s)) ;;
  qy <- defined (sdiv sum_y (avg_count s)) ;;
  ret (to_int16 qx, to_int16 qy).

(** ** Variance gate: the deviation loop of [XPT2046_ReadFiltered] *)

Fixpoint deviation_loop (n : nat) (i : nat) (x_samples y_samples : list Z)
    (x y : Z) (sum_diff_x sum_diff_y : Z) : option (Z * Z) :=
  match n with
  | O => Some (sum_diff_x, sum_diff_y)
  | S n' =>
      xi ← x_samples !! i;
      yi ← y_samples !! i;
      let diff_x := to_int16 (xi - x) in
      let diff_y := to_int16 (yi - y) in
      sq_x ← int_of (diff_x * diff_x);
      sum_diff_x' ← int_of (sum_diff_x + sq_x);
      sq_y ← int_of (diff_y * diff_y);
      sum_diff_y' ← int_of (sum_diff_y + sq_y);
      deviation_loop n' (S i) x_samples y_samples x y sum_diff_x' sum_diff_y'
  end.

(** The part of [XPT2046_ReadFiltered] after the samples are in: medians,
    deviation sums, and the verdict.  The medians are written through the
    output pointers before the verdict is known. *)
Definition filter_batch (x_samples y_samples : list Z) : option (bool * Z * Z) :=
  x ← median_filter x_samples XPT2046_READ_SAMPLES;
  y ← median_filter y_samples XPT2046_READ_SAMPLES;
  '(sum_diff_x, sum_diff_y) ←
    deviation_loop XPT2046_READ_SAMPLES 0 x_samples y_samples x y 0 0;
  qx ← sdiv sum_diff_x (Z.of_nat XPT2046_READ_SAMPLES);
  qy ← sdiv sum_diff_y (Z.of_nat XPT2046_READ_SAMPLES);
  let std_dev_x := to_int16 qx in
  let std_dev_y := to_int16 qy in
  if (std_dev_x >? 10000) || (std_dev_y >? 10000)
  then Some (false, x, y)
  else Some (true, x, y).

(** ** Code that talks to the controller *)

Section Driver.

(** The transport: exchange number [n], command byte [cmd], gives the
    two received bytes [rx_data[0]], [rx_data[1]]. *)
Variable spi : nat -> Z -> Z * Z.

Definition XPT2046_SendCommand (cmd : Z) : M Z :=
  s <- get ;;
  let tx_data := to_uint8 cmd in
  let rx_data := spi (spi_count s) tx_data in
  let rx0 := to_uint8 (fst rx_data) in
  let rx1 := to_uint8 (snd rx_data) in
  modify (set_spi_count (S (spi_count s))) ;;
  ret (to_int16 (Z.lor (Z.shiftl rx0 8) rx1)).

(** XPT2046_IRQ_PIN is not defined in xpt2046.h: no interrupt fast path. *)
Definition XPT2046_IsPressed : M bool :=
  r1 <- XPT2046_SendCommand CMD_Z1_READ ;;
  let z1 := to_int16 (Z.shiftr r1 3) in
  r2 <- XPT2046_SendCommand CMD_Z2_READ ;;
  let z2 := to_int16 (Z.shiftr r2 3) in
  if z1 <? 50 then ret false
  else
    let z := to_int16 (z2 - z1) in
    ret (z >? XPT2046_TOUCH_THRESHOLD).

(** The sampling loop of [XPT2046_ReadFiltered]; cell [i] of each array
    is written in iteration [i], so the arrays grow at the end. *)
Fixpoint sample_loop (n : nat) (x_samples y_samples : list Z)
  : M (list Z * list Z) :=
  match n with
  | O => ret (x_samples, y_samples)
  | S n' =>
      rx <- XPT2046_SendCommand CMD_X_READ ;;
      ry <- XPT2046_SendCommand CMD_Y_READ ;;
      sample_loop n' (x_samples ++ [to_int16 (Z.shiftr rx 3)])
                     (y_samples ++ [to_int16 (Z.shiftr ry 3)])
  end.

(** Returns the verdict and the values left in [*x] and [*y]. *)
Definition XPT2046_ReadFiltered : M (bool * Z * Z) :=
  '(x_samples, y_samples) <- sample_loop XPT2046_READ_SAMPLES [] [] ;;
  defined (filter_batch x_samples y_samples).

Definition XPT2046_Init : M unit :=
  modify (set_avg_buf_x zeroed) ;;
  modify (set_avg_buf_y zeroed) ;;
  modify (set_avg_count 0) ;;
  modify (set_last_valid_x (-1)) ;;
  modify (set_last_valid_y (-1)) ;;
  modify (set_invalid_count 0).

(** The jump check of [XPT2046_Read] (the block guarded buf_y
    [last_valid_x >= 0 && last_valid_y >= 0]).  The result [false] is the
    early [return false] of the block; [true] falls through to the
    averaging. *)
Definition jump_check (raw_x raw_y : Z) : M bool :=
  s <- get ;;
  if (last_valid_x s >=? 0) && (last_valid_y s >=? 0) then
    dx <- defined (int_of (raw_x - last_valid_x s)) ;;
    dy <- defined (int_of (raw_y - last_valid_y s)) ;;
    dx2 <- defined (int_of (dx * dx)) ;;
    dy2 <- defined (int_of (dy * dy)) ;;
    distance_sq <- defined (int_of (dx2 + dy2)) ;;
    let threshold_sq := XPT2046_JUMP_THRESHOLD * XPT2046_JUMP_THRESHOLD in
    if distance_sq >? threshold_sq then
      modify (set_invalid_count (to_uint8 (invalid_count s + 1))) ;;
      s <- get ;;
      if invalid_count s >=? XPT2046_MAX_INVALID_SAMPLES then
        modify (set_avg_count 0) ;;
        modify (set_avg_buf_x zeroed) ;;
        modify (set_avg_buf_y zeroed) ;;
        modify (set_invalid_count 0) ;;
        ret true
      else ret false
    else
      modify (set_invalid_count 0) ;;
      ret true
  else ret true.

(** [x] and [y] are the contents of the caller's variables behind the two
    output pointers; the result carries their contents after the call. *)
Definition XPT2046_Read (x y : Z) : M (bool * (Z * Z)) :=
  pressed <- XPT2046_IsPressed ;;
  if negb pressed then
    modify (set_avg_count 0) ;;
    modify (set_avg_buf_x zeroed) ;;
    modify (set_avg_buf_y zeroed) ;;
    modify (set_last_valid_x (-1)) ;;
    modify (set_last_valid_y (-1)) ;;
    modify (set_invalid_count 0) ;;
    ret (false, (x, y))
  else
    '(ok, raw_x, raw_y) <- XPT2046_ReadFiltered ;;
    if negb ok then
      s <- get ;;
      modify (set_invalid_count (to_uint8 (invalid_count s + 1))) ;;
      s <- get ;;
      (if invalid_count s >=? XPT2046_MAX_INVALID_SAMPLES then
         modify (set_avg_count 0) ;;
         modify (set_last_valid_x (-1)) ;;
         modify (set_last_valid_y (-1))
       else ret tt) ;;
      ret (false, (x, y))
    else
      '(raw_x, raw_y) <- XPT2046_ApplyCalibration raw_x raw_y ;;
      keep <- jump_check raw_x raw_y ;;
      if negb keep then ret (false, (x, y))
      else
        '(raw_x, raw_y) <- XPT2046_Average raw_x raw_y ;;
        modify (set_last_valid_x raw_x) ;;
        modify (set_last_valid_y raw_y) ;;
        ret (true, (raw_x, raw_y)).

Definition XPT2046_IsTouched : M bool := XPT2046_IsPressed.

End Driver.

(** The arguments are [int16_t] values; the four fields are assigned in
    turn, with no test on them. *)
Definition XPT2046_Calibrate (x_min y_min x_max y_max : Z) : M unit :=
  modify (fun s => set_calibration
            (Calibration x_min y_min x_max y_max) s).

Definition XPT2046_SetScreenSize (width height : Z) : M unit :=
  modify (set_screen_width width) ;;
  modify (set_screen_height height).

(** ** Definitions used by the statements *)

(** One pass of the inner loop seen as a function on lists: the running
    maximum [a] is carried to the end of [l]. *)
Fixpoint bubble (a : Z) (l : list Z) : list Z :=
  match l with
  | [] => [a]
  | b :: t => if a >? b then b :: bubble a t else a :: bubble b t
  end.

(** The value of [XPT2046_SendCommand(cmd) >> 3] at exchange [n]. *)
Definition reading (spi : nat -> Z -> Z * Z) (n : nat) (cmd : Z) : Z :=
  let rx_data := spi n (to_uint8 cmd) in
  to_int16 (Z.shiftr
    (to_int16 (Z.lor (Z.shiftl (to_uint8 (fst rx_data)) 8)
                     (to_uint8 (snd rx_data)))) 3).

(** The two bytes with which the controller answers a 12-bit conversion
    result [v]: the value sits three bits up in the 16-bit frame. *)
Definition frame (v : Z) : Z * Z :=
  (Z.shiftr (Z.shiftl v 3) 8, Z.land (Z.shiftl v 3) 255).

(** A panel that answers every exchange with the same four quantities. *)
Definition steady_bus (z1 z2 x y : Z) : nat -> Z -> Z * Z :=
  fun _ cmd =>
    if cmd =? CMD_Z1_READ then frame z1
    else if cmd =? CMD_Z2_READ then frame z2
    else if cmd =? CMD_X_READ then frame x
    else frame y.

(** A pressed panel (plates 100 and 700) on which the first X conversion of
    every read cycle (exchange 2 of the 16 of a cycle) is off by 300. *)
Definition noisy_bus : nat -> Z -> Z * Z :=
  fun n cmd =>
    if cmd =? CMD_Z1_READ then frame 100
    else if cmd =? CMD_Z2_READ then frame 700
    else if (cmd =? CMD_X_READ) && (Z.of_nat n mod 16 =? 2) then frame 300
    else frame 0.

(** A pressed panel at raw (160, 215) whose very first X conversion
    (exchange 2) is off by 400. *)
Definition glitch_bus : nat -> Z -> Z * Z :=
  fun n cmd =>
    if cmd =? CMD_Z1_READ then frame 100
    else if cmd =? CMD_Z2_READ then frame 700
    else if cmd =? CMD_X_READ then
      (if Z.of_nat n =? 2 then frame 560 else frame 160)
    else frame 215.

(** A batch whose X conversions are 0, 0, 0, 0, 4000, 4000, 4000 (the X
    conversions of a batch are the exchanges 0, 2, ..., 12) and whose Y
    conversions are all 0. *)
Definition split_bus : nat -> Z -> Z * Z :=
  fun n cmd =>
    if (cmd =? CMD_X_READ) && (8 <=? Z.of_nat n) then frame 4000
    else frame 0.

(** [n] successive calls of [XPT2046_Read], as made by a polling loop. *)
Fixpoint poll (spi : nat -> Z -> Z * Z) (n : nat) : M unit :=
  match n with
  | O => ret tt
  | S n' => XPT2046_Read spi 0 0 ;; poll spi n'
  end.

(** The state after [XPT2046_Init] with a 240x320 screen. *)
Definition portrait_state : xpt2046 :=
  set_screen_height 320 (set_screen_width 240 initial_state).

(** A touch in progress at pixel (100, 100) after [k] rejected samples. *)
Definition tracking_state (k : Z) : xpt2046 :=
  set_invalid_count k
    (set_last_valid_y 100 (set_last_valid_x 100
      (set_avg_count 1
        (set_avg_buf_y (100 :: replicate 9 0)
          (set_avg_buf_x (100 :: replicate 9 0) portrait_state))))).

(** In state [s] a call of [XPT2046_Read] passes the pressure gate and the
    variance gate, and the mapper turns the medians into [(cx, cy)]; [s2]
    is the state at that point. *)
Definition calibrated_sample (spi : nat -> Z -> Z * Z) (s : xpt2046)
    (cx cy : Z) (s2 : xpt2046) : Prop :=
  exists s1 rx ry,
    XPT2046_IsPressed spi s = Some (true, s1) /\
    XPT2046_ReadFiltered spi s1 = Some ((true, rx, ry), s2) /\
    XPT2046_ApplyCalibration rx ry s2 = Some ((cx, cy), s2).

(** The averaging buffers have their declared size, hold [int16_t] values,
    and [avg_count] counts at most the cells of a buffer. *)
Definition buffers_ok (s : xpt2046) : Prop :=
  length (avg_buf_x s) = XPT2046_AVG_SAMPLES /\
  length (avg_buf_y s) = XPT2046_AVG_SAMPLES /\
  Forall is_int16 (avg_buf_x s) /\
  Forall is_int16 (avg_buf_y s) /\
  0 <= avg_count s <= Z.of_nat XPT2046_AVG_SAMPLES.

(** Squared distance between two pixels. *)
Definition distance_sq (x1 y1 x2 y2 : Z) : Z :=
  (x1 - x2) * (x1 - x2) + (y1 - y2) * (y1 - y2).

(** A value the sampler can deliver: a 16-bit frame shifted down by 3. *)
Definition is_sample (v : Z) : Prop := -4096 <= v <= 4095.

(** Sum of the squared deviations of the values [l] from [m]. *)
Definition sq_dev_sum (m : Z) (l : list Z) : Z :=
  foldr (fun v acc => (v - m) * (v - m) + acc) 0 l.

(** Population variance of a batch around [m], in integer arithmetic. *)
Definition variance (m : Z) (l : list Z) : Z :=
  sq_dev_sum m l / Z.of_nat (length l).

(** The tracking variables hold values of their C types. *)
Definition state_ok (s : xpt2046) : Prop :=
  buffers_ok s /\
  is_int16 (last_valid_x s) /\ is_int16 (last_valid_y s) /\
  is_uint8 (invalid_count s).

(** A profile and a screen on which the mapper is exact. *)
Definition config_ok (s : xpt2046) : Prop :=
  x_min (calibration s) < x_max (calibration s) /\
  x_max (calibration s) - x_min (calibration s) <= 32767 /\
  y_min (calibration s) < y_max (calibration s) /\
  y_max (calibration s) - y_min (calibration s) <= 32767 /\
  0 < screen_width s <= 32767 /\
  0 < screen_height s <= 32767.

(** * Properties *)

(** ** Fixed-width integers *)

Lemma to_int16_id (v : Z) : is_int16 v -> to_int16 v = v.
Proof. unfold is_int16, to_int16. intros H. rewrite Z.mod_small; lia. Qed.

Lemma to_int16_range (v : Z) : is_int16 (to_int16 v).
Proof.
  unfold is_int16, to_int16.
  pose proof (Z.mod_pos_bound (v + 32768) 65536). lia.
Qed.

Lemma int_of_Some (v : Z) : INT_MIN <= v <= INT_MAX -> int_of v = Some v.
Proof.
  unfold int_of. intros [H1 H2].
  apply Z.leb_le in H1. apply Z.leb_le in H2. rewrite H1, H2. reflexivity.
Qed.

Lemma reading_range (spi : nat -> Z -> Z * Z) (n : nat) (cmd : Z) :
  -4096 <= reading spi n cmd <= 4095.
Proof.
  unfold reading.
  match goal with
  | |- context [Z.shiftr (to_int16 ?v) 3] =>
      pose proof (to_int16_range v) as Hw; set (w := to_int16 v) in *
  end.
  unfold is_int16 in Hw.
  rewrite Z.shiftr_div_pow2 by lia. change (2 ^ 3) with 8.
  assert (-4096 <= w / 8 <= 4095).
  { pose proof (Z.div_mod w 8). pose proof (Z.mod_pos_bound w 8). lia. }
  rewrite to_int16_id by (unfold is_int16; lia). assumption.
Qed.

(** ** The median filter sorts *)

Lemma compare_swap_middle (pre : list Z) (a b : Z) (rest : list Z) :
  compare_swap (pre ++ a :: b :: rest) (length pre) =
  if a >? b then pre ++ b :: a :: rest else pre ++ a :: b :: rest.
Proof.
  unfold compare_swap.
  rewrite list_lookup_middle by reflexivity.
  replace (pre ++ a :: b :: rest) with ((pre ++ [a]) ++ b :: rest) at 1
    by (rewrite <- app_assoc; reflexivity).
  rewrite list_lookup_middle by (rewrite length_app; simpl; lia).
  destruct (a >? b); [|reflexivity].
  rewrite insert_app_r_alt by lia.
  rewrite Nat.sub_diag. simpl.
  rewrite insert_app_r_alt by lia.
  replace (S (length pre) - length pre)%nat with 1%nat by lia.
  reflexivity.
Qed.

Lemma inner_loop_bubble (l1 : list Z) :
  forall (pre : list Z) (a : Z) (l2 : list Z),
    inner_loop (length l1) (length pre) (pre ++ a :: l1 ++ l2) =
    pre ++ bubble a l1 ++ l2.
Proof.
  induction l1 as [|b t IH]; intros pre a l2; simpl.
  - reflexivity.
  - rewrite compare_swap_middle.
    destruct (a >? b).
    + replace (pre ++ b :: a :: t ++ l2) with ((pre ++ [b]) ++ a :: t ++ l2)
        by (rewrite <- app_assoc; reflexivity).
      replace (S (length pre)) with (length (pre ++ [b]))
        by (rewrite length_app; simpl; lia).
      rewrite IH. rewrite <- app_assoc. reflexivity.
    + replace (pre ++ a :: b :: t ++ l2) with ((pre ++ [a]) ++ b :: t ++ l2)
        by (rewrite <- app_assoc; reflexivity).
      replace (S (length pre)) with (length (pre ++ [a]))
        by (rewrite length_app; simpl; lia).
      rewrite IH. rewrite <- app_assoc. reflexivity.
Qed.

Lemma bubble_Permutation (l : list Z) : forall a, bubble a l ≡ₚ a :: l.
Proof.
  induction l as [|b t IH]; intros a; simpl.
  - reflexivity.
  - destruct (a >? b).
    + rewrite IH. apply Permutation_swap.
    + rewrite IH. reflexivity.
Qed.

Lemma bubble_max_last (l : list Z) : forall a,
  exists init m, bubble a l = init ++ [m] /\ length init = length l /\
                 Forall (fun x => x <= m) init /\ a <= m.
Proof.
  induction l as [|b t IH]; intros a; simpl.
  - exists [], a. repeat split; [constructor | lia].
  - destruct (Z.gtb_spec a b) as [Hgt|Hle].
    + destruct (IH a) as (init & m & -> & Hlen & Hall & Ham).
      exists (b :: init), m. repeat split; [simpl; lia| |assumption].
      constructor; [lia | assumption].
    + destruct (IH b) as (init & m & -> & Hlen & Hall & Hbm).
      exists (a :: init), m. repeat split; [simpl; lia| |lia].
      constructor; [lia | assumption].
Qed.

(** Invariant of the outer loop: the last [i] cells are sorted and bound
    the unsorted front from above. *)
Lemma outer_loop_sorts (n : nat) : forall (front back : list Z),
  length front = S n ->
  StronglySorted Z.le back ->
  Forall (fun x => Forall (Z.le x) back) front ->
  StronglySorted Z.le
    (outer_loop n (length back) (length front + length back) (front ++ back)) /\
  outer_loop n (length back) (length front + length back) (front ++ back)
    ≡ₚ front ++ back.
Proof.
  induction n as [|n IH]; intros front back Hlen Hsorted Hbound.
  - destruct front as [|a [|? ?]]; try discriminate. simpl.
    split; [|reflexivity].
    constructor; [assumption|]. by inversion Hbound.
  - destruct front as [|a l1]; [discriminate|].
    cbn [outer_loop].
    replace (length (a :: l1) + length back - length back - 1)%nat
      with (length l1) by (simpl; lia).
    pose proof (inner_loop_bubble l1 [] a back) as Hpass.
    cbn [app length] in Hpass |- *. rewrite Hpass.
    destruct (bubble_max_last l1 a) as (init & m & Hb & Hlen' & Hinit & Ham).
    pose proof (bubble_Permutation l1 a) as Hperm.
    rewrite Hb in Hperm |- *. rewrite <- app_assoc. cbn [app].
    assert (Hm : m ∈ a :: l1).
    { rewrite <- Hperm. apply elem_of_app. right.
      apply list_elem_of_singleton. reflexivity. }
    assert (Hsub : forall x, x ∈ init -> x ∈ a :: l1).
    { intros x Hx. rewrite <- Hperm. apply elem_of_app. by left. }
    rewrite Forall_forall in Hbound.
    specialize (IH init (m :: back)).
    cbn [length] in IH, Hlen.
    replace (length init + S (length back))%nat
      with (S (length l1 + length back)) in IH by lia.
    destruct IH as [IH1 IH2].
    + lia.
    + constructor; [assumption|]. apply Hbound, Hm.
    + rewrite Forall_forall. intros x Hx. constructor.
      * rewrite Forall_forall in Hinit. apply Hinit, Hx.
      * apply Hbound, Hsub, Hx.
    + split; [exact IH1|]. rewrite IH2.
      change (init ++ m :: back) with (init ++ [m] ++ back).
      rewrite app_assoc, Hperm. reflexivity.
Qed.

Lemma bubble_sort_sorts (l : list Z) :
  StronglySorted Z.le (bubble_sort l (length l)) /\
  bubble_sort l (length l) ≡ₚ l.
Proof.
  unfold bubble_sort. destruct l as [|a l].
  - simpl. split; [constructor | reflexivity].
  - pose proof (outer_loop_sorts (length l) (a :: l) []) as H.
    rewrite app_nil_r in H. simpl length in H.
    replace (S (length l) + 0)%nat with (S (length l)) in H by lia.
    cbn [length].
    replace (S (length l) - 1)%nat with (length l) by lia.
    apply H; [reflexivity | constructor |].
    rewrite Forall_forall; intros; constructor.
Qed.

(** On an array that fits the local copy, the filter returns the cell
    [size / 2] of the sorted copy. *)
Lemma median_filter_sorted (data : list Z) :
  (length data <= XPT2046_READ_SAMPLES)%nat ->
  median_filter data (length data) =
  bubble_sort data (length data) !! (length data / 2)%nat.
Proof.
  intros Hlen. unfold median_filter.
  rewrite decide_True by (split; [assumption | lia]).
  rewrite take_ge by lia. reflexivity.
Qed.

Lemma median_filter_Permutation (data data' : list Z) :
  (length data <= XPT2046_READ_SAMPLES)%nat ->
  data' ≡ₚ data ->
  median_filter data' (length data') = median_filter data (length data).
Proof.
  intros Hlen Hperm.
  pose proof (Permutation_length Hperm) as Hl.
  rewrite !median_filter_sorted by lia.
  destruct (bubble_sort_sorts data) as [Hs Hp].
  destruct (bubble_sort_sorts data') as [Hs' Hp'].
  assert (Heq : bubble_sort data' (length data') =
                bubble_sort data (length data)).
  { apply (StronglySorted_unique Z.le); [exact Hs' | exact Hs |].
    rewrite Hp', Hp. exact Hperm. }
  rewrite Heq, Hl. reflexivity.
Qed.

(** C3 (amended): for every sample array of 1 to 7 elements (the local
    copy holds [XPT2046_READ_SAMPLES] cells), [median_filter] returns the
    element at index [size / 2] of the ascending sort of the array: the
    middle element for an odd length, the upper of the two middle elements
    for an even length.  The result is the same for every reordering of the
    array; the function reads [data] and writes only its local copy. *)
Theorem median_filter_middle_of_sort (data : list Z) :
  (1 <= length data <= XPT2046_READ_SAMPLES)%nat ->
  exists (sorted : list Z) (m : Z),
    Sorted Z.le sorted /\
    sorted ≡ₚ data /\
    sorted !! (length data / 2)%nat = Some m /\
    median_filter data (length data) = Some m /\
    forall data' : list Z,
      data' ≡ₚ data -> median_filter data' (length data') = Some m.
Proof.
  intros [Hpos Hcap].
  destruct (bubble_sort_sorts data) as [Hs Hp].
  assert (Hmid : is_Some (bubble_sort data (length data) !! (length data / 2)%nat)).
  { apply lookup_lt_is_Some_2. rewrite (Permutation_length Hp).
    apply Nat.div_lt; lia. }
  destruct Hmid as [m Hm].
  exists (bubble_sort data (length data)), m.
  split; [apply StronglySorted_Sorted, Hs|].
  split; [exact Hp|].
  split; [exact Hm|].
  split; [rewrite median_filter_sorted by lia; exact Hm|].
  intros data' Hperm.
  rewrite (median_filter_Permutation data data') by (lia || assumption).
  rewrite median_filter_sorted by lia. exact Hm.
Qed.

Lemma median_filter_middle_of_sort_witness :
  exists (sorted : list Z) (m : Z),
    Sorted Z.le sorted /\
    sorted ≡ₚ [30; 10; 50; 20; 40; 70; 60] /\
    sorted !! 3%nat = Some m /\
    median_filter [30; 10; 50; 20; 40; 70; 60] 7 = Some m /\
    forall data' : list Z,
      data' ≡ₚ [30; 10; 50; 20; 40; 70; 60] ->
      median_filter data' (length data') = Some m.
Proof.
  apply (median_filter_middle_of_sort [30; 10; 50; 20; 40; 70; 60]).
  unfold XPT2046_READ_SAMPLES. simpl. lia.
Defined.

(** C3 as written fails: on the even-length array 1, 2, 3, 4 the filter
    returns 3, the upper middle of the sorted order, where the lower middle
    is 2; and an array of 8 elements does not fit the local copy. *)
Lemma median_filter_even_upper_middle :
  median_filter [1; 2; 3; 4] 4 = Some 3 /\
  [1; 2; 3; 4] !! ((4 - 1) / 2)%nat = Some 2 /\
  median_filter [1; 2; 3; 4; 5; 6; 7; 8] 8 = None.
Proof. repeat split. Qed.

(** ** Running the code that talks to the controller *)

Section Runs.

Variable spi : nat -> Z -> Z * Z.

Lemma SendCommand_run (cmd : Z) (s : xpt2046) :
  exists w,
    XPT2046_SendCommand spi cmd s = Some (w, set_spi_count (S (spi_count s)) s) /\
    to_int16 (Z.shiftr w 3) = reading spi (spi_count s) cmd.
Proof.
  unfold XPT2046_SendCommand, reading, bind, get, modify, ret.
  eexists. split; reflexivity.
Qed.

(** The pressure gate in terms of the two plate readings. *)
Lemma IsPressed_run (s : xpt2046) :
  let z1 := reading spi (spi_count s) CMD_Z1_READ in
  let z2 := reading spi (S (spi_count s)) CMD_Z2_READ in
  XPT2046_IsPressed spi s =
  Some (if z1 <? 50 then false else z2 - z1 >? XPT2046_TOUCH_THRESHOLD,
        set_spi_count (S (S (spi_count s))) s).
Proof.
  intros z1 z2.
  unfold XPT2046_IsPressed, bind.
  destruct (SendCommand_run CMD_Z1_READ s) as (w1 & -> & H1).
  destruct (SendCommand_run CMD_Z2_READ (set_spi_count (S (spi_count s)) s))
    as (w2 & -> & H2).
  rewrite H1, H2. cbn [spi_count set_spi_count].
  fold z1 z2.
  pose proof (reading_range spi (spi_count s) CMD_Z1_READ).
  pose proof (reading_range spi (S (spi_count s)) CMD_Z2_READ).
  destruct (z1 <? 50); [reflexivity|].
  rewrite to_int16_id by (unfold is_int16; subst z1 z2; lia).
  reflexivity.
Qed.

Lemma sample_loop_run (n : nat) :
  forall (xs ys : list Z) (s : xpt2046),
    sample_loop spi n xs ys s =
    Some ((xs ++ map (fun i => reading spi (spi_count s + 2 * i) CMD_X_READ) (seq 0 n),
           ys ++ map (fun i => reading spi (spi_count s + 2 * i + 1) CMD_Y_READ) (seq 0 n)),
          set_spi_count (spi_count s + 2 * n) s).
Proof.
  induction n as [|n IH]; intros xs ys s.
  - simpl. rewrite !app_nil_r, Nat.add_0_r. destruct s; reflexivity.
  - cbn [sample_loop]. unfold bind at 1.
    destruct (SendCommand_run CMD_X_READ s) as (wx & -> & Hx).
    unfold bind at 1.
    destruct (SendCommand_run CMD_Y_READ (set_spi_count (S (spi_count s)) s))
      as (wy & -> & Hy).
    rewrite IH, Hx, Hy. cbn [spi_count set_spi_count seq map].
    rewrite <- !app_assoc. cbn [app].
    rewrite <- !seq_shift, !map_map.
    replace (spi_count s + 2 * 0)%nat with (spi_count s) by lia.
    replace (spi_count s + 1)%nat with (S (spi_count s)) by lia.
    replace (spi_count s + 2 * S n)%nat
      with (S (S (spi_count s)) + 2 * n)%nat by lia.
    rewrite (map_ext (fun x => reading spi (spi_count s + 2 * S x) CMD_X_READ)
               (fun i => reading spi (S (S (spi_count s)) + 2 * i) CMD_X_READ))
      by (intros; f_equal; lia).
    rewrite (map_ext (fun x => reading spi (spi_count s + 2 * S x + 1) CMD_Y_READ)
               (fun i => reading spi (S (S (spi_count s)) + 2 * i + 1) CMD_Y_READ))
      by (intros; f_equal; lia).
    reflexivity.
Qed.

Lemma ReadFiltered_run (s : xpt2046) :
  XPT2046_ReadFiltered spi s =
  match filter_batch
          (map (fun i => reading spi (spi_count s + 2 * i) CMD_X_READ)
               (seq 0 XPT2046_READ_SAMPLES))
          (map (fun i => reading spi (spi_count s + 2 * i + 1) CMD_Y_READ)
               (seq 0 XPT2046_READ_SAMPLES)) with
  | Some r => Some (r, set_spi_count (spi_count s + 2 * XPT2046_READ_SAMPLES) s)
  | None => None
  end.
Proof.
  unfold XPT2046_ReadFiltered, bind.
  rewrite sample_loop_run. reflexivity.
Qed.

End Runs.

(** ** Calibration update *)

(** C1 (amended): [XPT2046_Calibrate] performs no validation.  For every
    argument tuple, also with [x_min >= x_max] or [y_min >= y_max], the
    stored profile is replaced by the four given values and nothing else
    changes; a profile with [x_min = x_max] or [y_min = y_max] then reaches
    the mapper, whose division by the zero range is undefined. *)
Theorem calibrate_stores_unchecked (xmin ymin xmax ymax : Z) (s : xpt2046) :
  XPT2046_Calibrate xmin ymin xmax ymax s =
    Some (tt, set_calibration (Calibration xmin ymin xmax ymax) s) /\
  forall x y : Z,
    xmin = xmax \/ ymin = ymax ->
    XPT2046_ApplyCalibration x y
      (set_calibration (Calibration xmin ymin xmax ymax) s) = None.
Proof.
  split; [reflexivity|].
  intros x y Hdeg.
  unfold XPT2046_ApplyCalibration, bind, get, defined, udiv32.
  cbn [calibration set_calibration x_min x_max y_min y_max
       screen_width screen_height].
  destruct Hdeg as [-> | ->].
  - rewrite Z.sub_diag. reflexivity.
  - rewrite (Z.sub_diag ymax). cbn [to_uint32 Z.modulo Z.div_eucl Z.eqb].
    destruct (to_uint32 (xmax - xmin) =? 0); reflexivity.
Qed.

(** C1 as written fails: a call with [x_min = x_max] and [y_min = y_max] is
    not rejected; the profile is replaced, and the mapper then divides by
    zero. *)
Lemma calibrate_accepts_empty_range :
  exists s' : xpt2046,
    XPT2046_Calibrate 300 300 300 300 initial_state = Some (tt, s') /\
    calibration s' = Calibration 300 300 300 300 /\
    calibration s' <> calibration initial_state /\
    XPT2046_ApplyCalibration 1000 1000 s' = None.
Proof.
  eexists. split; [reflexivity|].
  split; [reflexivity|].
  split; [discriminate | reflexivity].
Qed.

(** ** Pressure gate *)

(** C9: with [z1] and [z2] the two plate readings of the call, the pressure
    gate answers false when [z1 < 50] and otherwise answers true exactly
    when [z2 - z1 > XPT2046_TOUCH_THRESHOLD] (500); [XPT2046_IsTouched]
    gives the same answer.  With readings 100 and 150 the answer is false,
    and whenever the answer is false [XPT2046_Read] returns false. *)
Theorem pressure_gate_decision (spi : nat -> Z -> Z * Z) (s : xpt2046) :
  let z1 := reading spi (spi_count s) CMD_Z1_READ in
  let z2 := reading spi (S (spi_count s)) CMD_Z2_READ in
  exists (touched : bool) (s' : xpt2046),
    XPT2046_IsPressed spi s = Some (touched, s') /\
    XPT2046_IsTouched spi s = Some (touched, s') /\
    (z1 < 50 -> touched = false) /\
    (50 <= z1 -> (touched = true <-> z2 - z1 > XPT2046_TOUCH_THRESHOLD)) /\
    (z1 = 100 -> z2 = 150 -> touched = false) /\
    (touched = false ->
     forall x y : Z, exists s'' : xpt2046,
       XPT2046_Read spi x y s = Some ((false, (x, y)), s'')).
Proof.
  intros z1 z2.
  pose proof (IsPressed_run spi s) as Hrun. cbv zeta in Hrun. fold z1 z2 in Hrun.
  eexists _, _. split; [exact Hrun|]. split; [exact Hrun|].
  unfold XPT2046_TOUCH_THRESHOLD in *.
  repeat split.
  - intros Hlow. apply Z.ltb_lt in Hlow. rewrite Hlow. reflexivity.
  - destruct (Z.ltb_spec z1 50); [lia|]. intros Hgt. apply Z.gtb_lt in Hgt. lia.
  - destruct (Z.ltb_spec z1 50); [lia|]. intros Hgt. apply Z.gtb_lt. lia.
  - intros -> ->. reflexivity.
  - intros Hfalse x y. unfold XPT2046_Read, bind at 1.
    rewrite Hrun, Hfalse. cbn [negb]. eexists. reflexivity.
Qed.

Lemma pressure_gate_decision_witness :
  exists s' : xpt2046,
    XPT2046_IsTouched (steady_bus 100 150 2000 2000) portrait_state =
      Some (false, s') /\
    exists s'' : xpt2046,
      XPT2046_Read (steady_bus 100 150 2000 2000) 7 9 portrait_state =
      Some ((false, (7, 9)), s'').
Proof.
  destruct (pressure_gate_decision (steady_bus 100 150 2000 2000) portrait_state)
    as (touched & s' & _ & Htouched & _ & _ & Hplates & Hread).
  assert (Hfalse : touched = false) by (apply Hplates; reflexivity).
  exists s'. split.
  - rewrite <- Hfalse. exact Htouched.
  - apply Hread, Hfalse.
Defined.

(** ** Output pointers *)

(** C10: a call of [XPT2046_Read] that returns false leaves the caller's two
    coordinate variables as they were. *)
Theorem read_failure_keeps_outputs (spi : nat -> Z -> Z * Z)
    (x y x' y' : Z) (s s' : xpt2046) :
  XPT2046_Read spi x y s = Some ((false, (x', y')), s') ->
  x' = x /\ y' = y.
Proof.
  unfold XPT2046_Read, bind.
  destruct (XPT2046_IsPressed spi s) as [[pressed s1]|]; [|discriminate].
  destruct pressed; cbn [negb].
  - destruct (XPT2046_ReadFiltered spi s1) as [[[[ok rx] ry] s2]|]; [|discriminate].
    destruct ok; cbn [negb].
    + destruct (XPT2046_ApplyCalibration rx ry s2) as [[[cx cy] s3]|]; [|discriminate].
      destruct (jump_check cx cy s3) as [[keep s4]|]; [|discriminate].
      destruct keep; cbn [negb].
      * destruct (XPT2046_Average cx cy s4) as [[[ax ay] s5]|]; [|discriminate].
        cbn. discriminate.
      * cbn. intros [= <- <- _]. split; reflexivity.
    + cbn.
      destruct (_ >=? _); cbn; intros [= <- <- _]; split; reflexivity.
  - cbn. intros [= <- <- _]. split; reflexivity.
Qed.

Lemma read_failure_keeps_outputs_witness :
  (* no pressure *)
  (XPT2046_Read (steady_bus 100 150 2000 2000) 7 9 (tracking_state 0) =
     Some ((false, (7, 9)), set_spi_count 2 portrait_state) /\
   ((7 : Z) = 7 /\ (9 : Z) = 9)) /\
  (* unreliable batch *)
  (XPT2046_Read noisy_bus 7 9 portrait_state =
     Some ((false, (7, 9)),
           set_invalid_count 1 (set_spi_count 16 portrait_state)) /\
   ((7 : Z) = 7 /\ (9 : Z) = 9)) /\
  (* jump rejected below the ceiling *)
  (XPT2046_Read (steady_bus 100 700 2943 1382) 7 9 (tracking_state 0) =
     Some ((false, (7, 9)),
           set_spi_count 16 (tracking_state 1)) /\
   ((7 : Z) = 7 /\ (9 : Z) = 9)).
Proof.
  split; [|split]; (split; [vm_compute; reflexivity|]).
  - apply (read_failure_keeps_outputs (steady_bus 100 150 2000 2000)
             7 9 7 9 (tracking_state 0) (set_spi_count 2 portrait_state)).
    vm_compute. reflexivity.
  - apply (read_failure_keeps_outputs noisy_bus 7 9 7 9 portrait_state
             (set_invalid_count 1 (set_spi_count 16 portrait_state))).
    vm_compute. reflexivity.
  - apply (read_failure_keeps_outputs (steady_bus 100 700 2943 1382)
             7 9 7 9 (tracking_state 0) (set_spi_count 16 (tracking_state 1))).
    vm_compute. reflexivity.
Defined.

(** ** Calibration mapper *)

(** The two clamps of one raw coordinate against the profile. *)
Lemma clamp_to_profile (v lo hi : Z) :
  lo < hi ->
  let c := if v <? lo then lo else v in
  let c' := if c >? hi then hi else c in
  lo <= c' <= hi /\ (v = lo -> c' = lo) /\ (v = hi -> c' = hi).
Proof.
  intros Hlt c c'. subst c c'.
  destruct (Z.ltb_spec v lo); destruct (Z.gtb_spec lo hi);
    try destruct (Z.gtb_spec v hi); lia.
Qed.

(** Scaling one clamped offset [d] of a raw range [range] to [dim] pixels,
    in the integer types of the source. *)
Lemma scale_to_screen (d range dim : Z) :
  0 < range <= 32767 -> 0 < dim <= 32767 -> 0 <= d <= range ->
  to_uint32 range = range /\
  let q := to_int16 (to_uint32 (to_uint32 (to_int16 d) * dim) / range) in
  0 <= q <= dim /\ (d = 0 -> q = 0) /\ (d = range -> q = dim).
Proof.
  intros Hrange Hdim Hd.
  split; [unfold to_uint32; apply Z.mod_small; lia|].
  rewrite (to_int16_id d) by (unfold is_int16; lia).
  unfold to_uint32.
  rewrite (Z.mod_small d) by lia.
  rewrite (Z.mod_small (d * dim)) by nia.
  assert (Hq : 0 <= d * dim / range <= dim).
  { split; [apply Z.div_pos; nia|].
    apply Z.div_le_upper_bound; nia. }
  cbv zeta. rewrite to_int16_id by (unfold is_int16; lia).
  split; [exact Hq|]. split.
  - intros ->. reflexivity.
  - intros ->. rewrite Z.mul_comm. apply Z.div_mul. lia.
Qed.

(** The final clamp of one pixel coordinate. *)
Lemma clamp_to_screen (q dim : Z) :
  0 < dim <= 32767 -> 0 <= q <= dim ->
  let p := if q <? 0 then 0 else q in
  let p' := if p >=? to_int16 dim then to_int16 (dim - 1) else p in
  0 <= p' < dim /\ (q = 0 -> p' = 0) /\ (q = dim -> p' = dim - 1).
Proof.
  intros Hdim Hq p p'. subst p p'.
  rewrite !to_int16_id by (unfold is_int16; lia).
  destruct (Z.ltb_spec q 0); [lia|].
  destruct (Z.geb_spec q dim); lia.
Qed.

(** The mapper as a function of the clamped offsets, for a profile whose
    ranges fit [int16_t] and a screen whose sides fit [int16_t]. *)
Lemma ApplyCalibration_run (x y : Z) (s : xpt2046) :
  let c := calibration s in
  x_min c < x_max c -> x_max c - x_min c <= 32767 ->
  y_min c < y_max c -> y_max c - y_min c <= 32767 ->
  0 < screen_width s <= 32767 ->
  0 < screen_height s <= 32767 ->
  exists px py : Z,
    XPT2046_ApplyCalibration x y s = Some ((px, py), s) /\
    0 <= px < screen_width s /\ 0 <= py < screen_height s /\
    (x = x_min c -> px = 0) /\ (y = y_min c -> py = 0) /\
    (x = x_max c -> px = screen_width s - 1) /\
    (y = y_max c -> py = screen_height s - 1).
Proof.
  intros c Hx Hxr Hy Hyr Hw Hh.
  unfold XPT2046_ApplyCalibration, bind, get, defined, ret, udiv32.
  change (XPT2046_XY_SWAP =? 0) with true.
  change (XPT2046_X_INV =? 0) with true.
  change (XPT2046_Y_INV =? 0) with true.
  fold c. cbv iota beta.
  destruct (clamp_to_profile x (x_min c) (x_max c) Hx) as (Hcx & Hcx0 & Hcx1).
  destruct (clamp_to_profile y (y_min c) (y_max c) Hy) as (Hcy & Hcy0 & Hcy1).
  cbv zeta in Hcx, Hcx0, Hcx1, Hcy, Hcy0, Hcy1.
  set (cx := if (if x <? x_min c then x_min c else x) >? x_max c
             then x_max c else (if x <? x_min c then x_min c else x)) in *.
  set (cy := if (if y <? y_min c then y_min c else y) >? y_max c
             then y_max c else (if y <? y_min c then y_min c else y)) in *.
  destruct (scale_to_screen (cx - x_min c) (x_max c - x_min c) (screen_width s))
    as (Hux & Hqx & Hqx0 & Hqx1); [lia | lia | lia |].
  destruct (scale_to_screen (cy - y_min c) (y_max c - y_min c) (screen_height s))
    as (Huy & Hqy & Hqy0 & Hqy1); [lia | lia | lia |].
  cbv zeta in Hqx, Hqx0, Hqx1, Hqy, Hqy0, Hqy1.
  rewrite Hux, Huy.
  destruct (Z.eqb_spec (x_max c - x_min c) 0) as [|_]; [lia|].
  destruct (Z.eqb_spec (y_max c - y_min c) 0) as [|_]; [lia|].
  cbv iota beta zeta.
  set (qx := to_int16 (to_uint32 (to_uint32 (to_int16 (cx - x_min c)) *
               screen_width s) / (x_max c - x_min c))) in *.
  set (qy := to_int16 (to_uint32 (to_uint32 (to_int16 (cy - y_min c)) *
               screen_height s) / (y_max c - y_min c))) in *.
  destruct (clamp_to_screen qx (screen_width s) Hw Hqx) as (Hpx & Hpx0 & Hpx1).
  destruct (clamp_to_screen qy (screen_height s) Hh Hqy) as (Hpy & Hpy0 & Hpy1).
  cbv zeta in Hpx, Hpx0, Hpx1, Hpy, Hpy0, Hpy1.
  eexists _, _. split; [reflexivity|].
  split; [exact Hpx|]. split; [exact Hpy|].
  repeat split; intros Heq.
  - apply Hpx0, Hqx0. rewrite (Hcx0 Heq). lia.
  - apply Hpy0, Hqy0. rewrite (Hcy0 Heq). lia.
  - apply Hpx1, Hqx1. rewrite (Hcx1 Heq). lia.
  - apply Hpy1, Hqy1. rewrite (Hcy1 Heq). lia.
Qed.

(** C7 (amended): with no swap and no inversion (the configuration of
    xpt2046.h), a profile with [x_min < x_max] and [y_min < y_max] whose two
    ranges [x_max - x_min] and [y_max - y_min] are at most 32767, and a
    screen whose width and height lie between 1 and 32767, the mapper sends
    [(x_min, y_min)] to [(0, 0)] and [(x_max, y_max)] to
    [(width - 1, height - 1)], and every raw input, in or out of the
    profile's range, to a point of [[0, width) x [0, height)]. *)
Theorem mapper_corners_and_range (s : xpt2046) :
  let c := calibration s in
  x_min c < x_max c -> x_max c - x_min c <= 32767 ->
  y_min c < y_max c -> y_max c - y_min c <= 32767 ->
  0 < screen_width s <= 32767 ->
  0 < screen_height s <= 32767 ->
  XPT2046_ApplyCalibration (x_min c) (y_min c) s = Some ((0, 0), s) /\
  XPT2046_ApplyCalibration (x_max c) (y_max c) s =
    Some ((screen_width s - 1, screen_height s - 1), s) /\
  forall x y : Z, exists px py : Z,
    XPT2046_ApplyCalibration x y s = Some ((px, py), s) /\
    0 <= px < screen_width s /\ 0 <= py < screen_height s.
Proof.
  intros c Hx Hxr Hy Hyr Hw Hh.
  split; [|split].
  - destruct (ApplyCalibration_run (x_min c) (y_min c) s Hx Hxr Hy Hyr Hw Hh)
      as (px & py & -> & _ & _ & Hx0 & Hy0 & _ & _).
    rewrite Hx0, Hy0 by reflexivity. reflexivity.
  - destruct (ApplyCalibration_run (x_max c) (y_max c) s Hx Hxr Hy Hyr Hw Hh)
      as (px & py & -> & _ & _ & _ & _ & Hx1 & Hy1).
    rewrite Hx1, Hy1 by reflexivity. reflexivity.
  - intros x y.
    destruct (ApplyCalibration_run x y s Hx Hxr Hy Hyr Hw Hh)
      as (px & py & Hrun & Hpx & Hpy & _).
    exists px, py. auto.
Qed.

Lemma mapper_corners_and_range_witness :
  XPT2046_ApplyCalibration 160 215 portrait_state =
    Some ((0, 0), portrait_state) /\
  XPT2046_ApplyCalibration 3870 3910 portrait_state =
    Some ((239, 319), portrait_state) /\
  forall x y : Z, exists px py : Z,
    XPT2046_ApplyCalibration x y portrait_state = Some ((px, py), portrait_state) /\
    0 <= px < 240 /\ 0 <= py < 320.
Proof.
  apply (mapper_corners_and_range portrait_state);
    unfold portrait_state, initial_state, XPT2046_X_MIN, XPT2046_X_MAX,
      XPT2046_Y_MIN, XPT2046_Y_MAX; simpl; lia.
Defined.

(** C7 as written fails outside those bounds.  With the profile
    [x_min = -20000], [x_max = 20000] the offset [x_max - x_min] does not fit
    [int16_t] and the corner [(x_max, y_max)] is mapped to x = 0, not to
    [width - 1]; with a screen 40000 pixels wide the mapped x is negative. *)
Lemma mapper_fails_on_wide_range :
  XPT2046_ApplyCalibration 20000 100
    (set_calibration (Calibration (-20000) 0 20000 100) portrait_state) =
    Some ((0, 319),
          set_calibration (Calibration (-20000) 0 20000 100) portrait_state) /\
  XPT2046_ApplyCalibration 3870 3910 (set_screen_width 40000 portrait_state) =
    Some ((-25537, 319), set_screen_width 40000 portrait_state).
Proof. split; vm_compute; reflexivity. Qed.

(** ** End to end *)

(** The tail of [XPT2046_Read] once a calibrated point is at hand. *)
Lemma Read_run (spi : nat -> Z -> Z * Z) (x y : Z) (s s1 s2 s3 : xpt2046)
    (rx ry cx cy : Z) :
  XPT2046_IsPressed spi s = Some (true, s1) ->
  XPT2046_ReadFiltered spi s1 = Some ((true, rx, ry), s2) ->
  XPT2046_ApplyCalibration rx ry s2 = Some ((cx, cy), s3) ->
  XPT2046_Read spi x y s =
  (keep <- jump_check cx cy ;;
   if negb keep then ret (false, (x, y))
   else
     '(ax, ay) <- XPT2046_Average cx cy ;;
     modify (set_last_valid_x ax) ;;
     modify (set_last_valid_y ay) ;;
     ret (true, (ax, ay))) s3.
Proof.
  intros Hp Hf Hc.
  unfold XPT2046_Read. unfold bind at 1. rewrite Hp. cbn [negb].
  unfold bind at 1. rewrite Hf. cbn [negb].
  unfold bind at 1. rewrite Hc. reflexivity.
Qed.

(** C8: after [XPT2046_Init], with the profile (160, 215, 3870, 3910) and a
    240x320 screen, if the pressure plates read 100 and 700 and every X and
    Y conversion reads 160 and 215, [XPT2046_Read] returns true and stores
    the point (0, 0). *)
Theorem read_end_to_end_origin (spi : nat -> Z -> Z * Z) (s0 : xpt2046)
    (x y : Z) :
  (forall n, reading spi n CMD_Z1_READ = 100) ->
  (forall n, reading spi n CMD_Z2_READ = 700) ->
  (forall n, reading spi n CMD_X_READ = 160) ->
  (forall n, reading spi n CMD_Y_READ = 215) ->
  exists s' : xpt2046,
    (XPT2046_Init ;;
     XPT2046_Calibrate 160 215 3870 3910 ;;
     XPT2046_SetScreenSize 240 320 ;;
     XPT2046_Read spi x y) s0 = Some ((true, (0, 0)), s').
Proof.
  intros Hz1 Hz2 Hx Hy.
  unfold XPT2046_Init, XPT2046_Calibrate, XPT2046_SetScreenSize.
  unfold bind at 1 2 3 4 5 6 7 8 9. unfold modify at 1 2 3 4 5 6 7 8 9.
  match goal with |- exists s', XPT2046_Read _ _ _ ?st = _ => set (s1 := st) end.
  assert (Hp : XPT2046_IsPressed spi s1 =
               Some (true, set_spi_count (S (S (spi_count s1))) s1)).
  { rewrite IsPressed_run, Hz1, Hz2. reflexivity. }
  assert (Hf : XPT2046_ReadFiltered spi (set_spi_count (S (S (spi_count s1))) s1) =
               Some ((true, 160, 215),
                     set_spi_count (S (S (spi_count s1)) + 2 * XPT2046_READ_SAMPLES) s1)).
  { rewrite ReadFiltered_run.
    unfold XPT2046_READ_SAMPLES at 1 2. cbn [seq map].
    rewrite !Hx, !Hy. reflexivity. }
  set (s2 := set_spi_count (S (S (spi_count s1)) + 2 * XPT2046_READ_SAMPLES) s1) in *.
  destruct (ApplyCalibration_run 160 215 s2)
    as (px & py & Hc & _ & _ & Hpx & Hpy & _); try (cbn; lia).
  rewrite (Hpx eq_refl), (Hpy eq_refl) in Hc.
  rewrite (Read_run spi x y s1 _ _ _ _ _ _ _ Hp Hf Hc).
  eexists. vm_compute. reflexivity.
Qed.

Lemma read_end_to_end_origin_witness :
  exists s' : xpt2046,
    (XPT2046_Init ;;
     XPT2046_Calibrate 160 215 3870 3910 ;;
     XPT2046_SetScreenSize 240 320 ;;
     XPT2046_Read (steady_bus 100 700 160 215) 7 9) initial_state =
    Some ((true, (0, 0)), s').
Proof.
  apply (read_end_to_end_origin (steady_bus 100 700 160 215) initial_state 7 9);
    intros n; reflexivity.
Defined.

(** ** Jump check *)

Lemma ApplyCalibration_int16 (x y cx cy : Z) (s s' : xpt2046) :
  XPT2046_ApplyCalibration x y s = Some ((cx, cy), s') ->
  is_int16 cx /\ is_int16 cy /\ s' = s.
Proof.
  unfold XPT2046_ApplyCalibration, bind, get, defined, ret.
  change (XPT2046_XY_SWAP =? 0) with true.
  change (XPT2046_X_INV =? 0) with true.
  change (XPT2046_Y_INV =? 0) with true.
  cbv iota beta zeta.
  destruct (udiv32 _ _) as [qx|]; [|discriminate].
  destruct (udiv32 _ _) as [qy|]; [|discriminate].
  intros [= <- <- <-].
  pose proof (to_int16_range qx). pose proof (to_int16_range qy).
  pose proof (to_int16_range (screen_width s - 1)).
  pose proof (to_int16_range (screen_height s - 1)).
  unfold is_int16 in *.
  split; [|split; [|reflexivity]];
    repeat match goal with |- context [if ?b then _ else _] => destruct b end;
    lia.
Qed.

Section JumpCheck.

Variables (cx cy : Z) (s : xpt2046).
Hypothesis Hlx : 0 <= last_valid_x s.
Hypothesis Hly : 0 <= last_valid_y s.

Lemma jump_check_guard :
  (last_valid_x s >=? 0) && (last_valid_y s >=? 0) = true.
Proof.
  apply andb_true_intro. split; apply Z.geb_le; assumption.
Qed.

Lemma jump_check_distance :
  distance_sq cx cy (last_valid_x s) (last_valid_y s) <= INT_MAX ->
  jump_check cx cy s =
  (if distance_sq cx cy (last_valid_x s) (last_valid_y s) >?
      XPT2046_JUMP_THRESHOLD * XPT2046_JUMP_THRESHOLD then
     modify (set_invalid_count (to_uint8 (invalid_count s + 1))) ;;
     s <- get ;;
     if invalid_count s >=? XPT2046_MAX_INVALID_SAMPLES then
       modify (set_avg_count 0) ;;
       modify (set_avg_buf_x zeroed) ;;
       modify (set_avg_buf_y zeroed) ;;
       modify (set_invalid_count 0) ;;
       ret true
     else ret false
   else
     modify (set_invalid_count 0) ;;
     ret true) s.
Proof.
  intros Hmax. unfold distance_sq, INT_MAX in Hmax.
  set (dx := cx - last_valid_x s) in *.
  set (dy := cy - last_valid_y s) in *.
  assert (Hdx : 0 <= dx * dx /\ dx <= dx * dx /\ - dx <= dx * dx) by nia.
  assert (Hdy : 0 <= dy * dy /\ dy <= dy * dy /\ - dy <= dy * dy) by nia.
  unfold jump_check. unfold bind at 1. unfold get at 1.
  rewrite jump_check_guard. fold dx dy.
  unfold bind at 1, defined at 1.
  rewrite (int_of_Some dx) by (unfold INT_MIN, INT_MAX; lia).
  unfold bind at 1, defined at 1.
  rewrite (int_of_Some dy) by (unfold INT_MIN, INT_MAX; lia).
  unfold bind at 1, defined at 1.
  rewrite (int_of_Some (dx * dx)) by (unfold INT_MIN, INT_MAX; lia).
  unfold bind at 1, defined at 1.
  rewrite (int_of_Some (dy * dy)) by (unfold INT_MIN, INT_MAX; lia).
  unfold bind at 1, defined at 1.
  rewrite (int_of_Some (dx * dx + dy * dy)) by (unfold INT_MIN, INT_MAX; lia).
  reflexivity.
Qed.

Lemma jump_check_near :
  distance_sq cx cy (last_valid_x s) (last_valid_y s) <= XPT2046_JUMP_THRESHOLD * XPT2046_JUMP_THRESHOLD ->
  jump_check cx cy s = Some (true, set_invalid_count 0 s).
Proof.
  intros Hnear.
  rewrite jump_check_distance
    by (unfold XPT2046_JUMP_THRESHOLD, INT_MAX in *; lia).
  destruct (Z.gtb_spec (distance_sq cx cy (last_valid_x s) (last_valid_y s))
            (XPT2046_JUMP_THRESHOLD * XPT2046_JUMP_THRESHOLD));
    [lia | reflexivity].
Qed.

Lemma jump_check_far_below :
  XPT2046_JUMP_THRESHOLD * XPT2046_JUMP_THRESHOLD < distance_sq cx cy (last_valid_x s) (last_valid_y s) <= INT_MAX ->
  to_uint8 (invalid_count s + 1) < XPT2046_MAX_INVALID_SAMPLES ->
  jump_check cx cy s =
  Some (false, set_invalid_count (to_uint8 (invalid_count s + 1)) s).
Proof.
  intros Hfar Hbelow.
  rewrite jump_check_distance by lia.
  destruct (Z.gtb_spec (distance_sq cx cy (last_valid_x s) (last_valid_y s))
            (XPT2046_JUMP_THRESHOLD * XPT2046_JUMP_THRESHOLD));
    [|lia].
  unfold bind at 1, modify at 1. unfold bind at 1, get at 1.
  cbn [invalid_count set_invalid_count].
  destruct (Z.geb_spec (to_uint8 (invalid_count s + 1))
              XPT2046_MAX_INVALID_SAMPLES); [lia | reflexivity].
Qed.

Lemma jump_check_far_ceiling :
  XPT2046_JUMP_THRESHOLD * XPT2046_JUMP_THRESHOLD < distance_sq cx cy (last_valid_x s) (last_valid_y s) <= INT_MAX ->
  XPT2046_MAX_INVALID_SAMPLES <= to_uint8 (invalid_count s + 1) ->
  jump_check cx cy s =
  Some (true,
        set_invalid_count 0
          (set_avg_buf_y zeroed
             (set_avg_buf_x zeroed
                (set_avg_count 0
                   (set_invalid_count (to_uint8 (invalid_count s + 1)) s))))).
Proof.
  intros Hfar Hceil.
  rewrite jump_check_distance by lia.
  destruct (Z.gtb_spec (distance_sq cx cy (last_valid_x s) (last_valid_y s))
            (XPT2046_JUMP_THRESHOLD * XPT2046_JUMP_THRESHOLD));
    [|lia].
  unfold bind at 1, modify at 1. unfold bind at 1, get at 1.
  cbn [invalid_count set_invalid_count].
  destruct (Z.geb_spec (to_uint8 (invalid_count s + 1))
              XPT2046_MAX_INVALID_SAMPLES); [reflexivity | lia].
Qed.

End JumpCheck.

(** ** Moving average *)

Lemma array_set_Some (a : list Z) (i : nat) (v : Z) :
  (i < length a)%nat -> array_set a i v = Some (<[i := v]> a).
Proof. intros H. unfold array_set. rewrite decide_True by assumption. reflexivity. Qed.

Lemma shift_loop_ok (n : nat) : forall buf_x buf_y : list Z,
  (n < length buf_x)%nat -> (n < length buf_y)%nat ->
  Forall is_int16 buf_x -> Forall is_int16 buf_y ->
  exists buf_x' buf_y',
    shift_loop n buf_x buf_y = Some (buf_x', buf_y') /\
    length buf_x' = length buf_x /\ length buf_y' = length buf_y /\
    Forall is_int16 buf_x' /\ Forall is_int16 buf_y'.
Proof.
  induction n as [|n IH]; intros buf_x buf_y Hx Hy Hfx Hfy.
  - exists buf_x, buf_y. simpl. auto.
  - destruct (lookup_lt_is_Some_2 buf_x n) as [vx Hvx]; [lia|].
    destruct (lookup_lt_is_Some_2 buf_y n) as [vy Hvy]; [lia|].
    destruct (IH (<[S n := vx]> buf_x) (<[S n := vy]> buf_y))
      as (bx' & by' & Hrun & Hlx & Hly & Hfx' & Hfy').
    + rewrite length_insert. lia.
    + rewrite length_insert. lia.
    + apply Forall_insert; [assumption|].
      exact (Forall_lookup_1 is_int16 buf_x n vx Hfx Hvx).
    + apply Forall_insert; [assumption|].
      exact (Forall_lookup_1 is_int16 buf_y n vy Hfy Hvy).
    + exists bx', by'. rewrite length_insert in Hlx, Hly.
      split; [|auto].
      cbn [shift_loop]. rewrite Hvx, Hvy. cbn [mbind option_bind].
      rewrite (array_set_Some buf_x) by lia. cbn [mbind option_bind].
      rewrite (array_set_Some buf_y) by lia. cbn [mbind option_bind].
      exact Hrun.
Qed.

Lemma sum_loop_ok (n : nat) : forall (i : nat) (buf_x buf_y : list Z) (sx sy : Z),
  (i + n <= length buf_x)%nat -> (i + n <= length buf_y)%nat ->
  (i + n <= 10)%nat ->
  Forall is_int16 buf_x -> Forall is_int16 buf_y ->
  Z.abs sx <= Z.of_nat i * 32768 -> Z.abs sy <= Z.of_nat i * 32768 ->
  exists sx' sy',
    sum_loop n i buf_x buf_y sx sy = Some (sx', sy') /\
    Z.abs sx' <= Z.of_nat (i + n) * 32768 /\
    Z.abs sy' <= Z.of_nat (i + n) * 32768.
Proof.
  induction n as [|n IH]; intros i buf_x buf_y sx sy Hx Hy Hcap Hfx Hfy Hsx Hsy.
  - exists sx, sy. rewrite Nat.add_0_r. simpl. auto.
  - destruct (lookup_lt_is_Some_2 buf_x i) as [vx Hvx]; [lia|].
    destruct (lookup_lt_is_Some_2 buf_y i) as [vy Hvy]; [lia|].
    pose proof (Forall_lookup_1 _ _ _ _ Hfx Hvx) as Hix.
    pose proof (Forall_lookup_1 _ _ _ _ Hfy Hvy) as Hiy.
    unfold is_int16 in Hix, Hiy.
    destruct (IH (S i) buf_x buf_y (sx + vx) (sy + vy))
      as (sx' & sy' & Hrun & Hbx & Hby); try assumption; try lia.
    exists sx', sy'. split.
    + cbn [sum_loop]. rewrite Hvx, Hvy. cbn [mbind option_bind].
      rewrite (int_of_Some (sx + vx)) by (unfold INT_MIN, INT_MAX; lia).
      cbn [mbind option_bind].
      rewrite (int_of_Some (sy + vy)) by (unfold INT_MIN, INT_MAX; lia).
      cbn [mbind option_bind]. exact Hrun.
    + replace (i + S n)%nat with (S i + n)%nat by lia. auto.
Qed.

Lemma sdiv_small (a b : Z) :
  0 < b -> Z.abs a <= 327680 ->
  exists q, sdiv a b = Some q /\ Z.abs q <= Z.abs a.
Proof.
  intros Hb Ha. unfold sdiv.
  destruct (Z.eqb_spec b 0); [lia|].
  assert (Hq : Z.abs (Z.quot a b) <= Z.abs a).
  { rewrite <- Z.quot_abs by lia. rewrite (Z.abs_eq b) by lia.
    pose proof (Z.abs_nonneg a).
    apply Z.quot_le_upper_bound; [lia|]. nia. }
  exists (Z.quot a b). split; [|exact Hq].
  apply int_of_Some. unfold INT_MIN, INT_MAX. lia.
Qed.

(** The average of a state whose buffers are in order is defined; the
    call touches only the three averaging variables. *)
Lemma Average_ok (x y : Z) (s : xpt2046) :
  buffers_ok s -> is_int16 x -> is_int16 y ->
  exists (ax ay : Z) (bx' by' : list Z) (n : Z),
    XPT2046_Average x y s =
      Some ((ax, ay), set_avg_count n (set_avg_buf_y by' (set_avg_buf_x bx' s))) /\
    is_int16 ax /\ is_int16 ay /\
    buffers_ok (set_avg_count n (set_avg_buf_y by' (set_avg_buf_x bx' s))).
Proof.
  intros (Hlx & Hly & Hfx & Hfy & Hc) Hx Hy.
  unfold XPT2046_AVG_SAMPLES in *.
  destruct (shift_loop_ok 9 (avg_buf_x s) (avg_buf_y s))
    as (bx1 & by1 & Hshift & Hlx1 & Hly1 & Hfx1 & Hfy1); try assumption; try lia.
  set (n := if avg_count s <? 10 then to_uint8 (avg_count s + 1) else avg_count s).
  assert (Hn : 1 <= n <= 10).
  { subst n. unfold to_uint8. destruct (Z.ltb_spec (avg_count s) 10).
    - rewrite Z.mod_small; lia.
    - lia. }
  destruct (sum_loop_ok (Z.to_nat n) 0 (<[0%nat := x]> bx1) (<[0%nat := y]> by1) 0 0)
    as (sx & sy & Hsum & Hsx & Hsy);
    try (rewrite length_insert; lia); try lia;
    try (apply Forall_insert; assumption).
  destruct (sdiv_small sx n) as (qx & Hqx & Hqxb); [lia | lia |].
  destruct (sdiv_small sy n) as (qy & Hqy & Hqyb); [lia | lia |].
  exists (to_int16 qx), (to_int16 qy), (<[0%nat := x]> bx1), (<[0%nat := y]> by1), n.
  split; [|split; [apply to_int16_range | split; [apply to_int16_range|]]].
  - unfold XPT2046_Average. unfold bind at 1. unfold get at 1.
    unfold XPT2046_AVG_SAMPLES.
    change (10 - 1)%nat with 9%nat. rewrite Hshift.
    unfold bind at 1, defined at 1. cbv iota beta.
    rewrite !array_set_Some by lia.
    unfold bind at 1, defined at 1.
    unfold bind at 1, defined at 1.
    unfold bind at 1, modify at 1.
    unfold bind at 1, modify at 1.
    change (Z.of_nat 10) with 10.
    assert (Hstep : forall (s0 : xpt2046),
      avg_count s0 = avg_count s ->
      (if avg_count s <? 10
       then modify (set_avg_count (to_uint8 (avg_count s + 1)))
       else ret tt) s0 = Some (tt, set_avg_count n s0)).
    { intros s0 Hs0. subst n. destruct (avg_count s <? 10); [reflexivity|].
      unfold ret. rewrite <- Hs0. destruct s0; reflexivity. }
    unfold bind at 1. rewrite Hstep by reflexivity.
    unfold bind at 1, get at 1.
    cbn [avg_count avg_buf_x avg_buf_y set_avg_count set_avg_buf_x set_avg_buf_y].
    rewrite Hsum.
    unfold bind at 1, defined at 1. cbv iota beta.
    unfold bind at 1, defined at 1. rewrite Hqx.
    unfold bind at 1, defined at 1. rewrite Hqy.
    reflexivity.
  - unfold buffers_ok, XPT2046_AVG_SAMPLES.
    cbn [avg_count avg_buf_x avg_buf_y set_avg_count set_avg_buf_x set_avg_buf_y].
    rewrite !length_insert.
    repeat split; try lia; apply Forall_insert; assumption.
Qed.

(** The first average after the history was cleared is the point itself. *)
Lemma Average_fresh (x y : Z) (s : xpt2046) :
  avg_buf_x s = zeroed -> avg_buf_y s = zeroed -> avg_count s = 0 ->
  is_int16 x -> is_int16 y ->
  XPT2046_Average x y s =
  Some ((x, y),
        set_avg_count 1
          (set_avg_buf_y (y :: replicate 9 0)
             (set_avg_buf_x (x :: replicate 9 0) s))).
Proof.
  intros Hbx Hby Hc Hx Hy.
  unfold XPT2046_Average. unfold bind at 1. unfold get at 1.
  rewrite Hbx, Hby, Hc.
  change (shift_loop (XPT2046_AVG_SAMPLES - 1) zeroed zeroed)
    with (Some (zeroed, zeroed)).
  unfold bind at 1, defined at 1. cbv iota beta.
  change (array_set zeroed 0 x) with (Some (x :: replicate 9 0)).
  change (array_set zeroed 0 y) with (Some (y :: replicate 9 0)).
  unfold bind at 1, defined at 1.
  unfold bind at 1, defined at 1.
  unfold bind at 1, modify at 1.
  unfold bind at 1, modify at 1.
  change (0 <? Z.of_nat XPT2046_AVG_SAMPLES) with true. cbv iota.
  unfold bind at 1, modify at 1.
  unfold bind at 1, get at 1.
  cbn [avg_count avg_buf_x avg_buf_y set_avg_count set_avg_buf_x set_avg_buf_y].
  change (to_uint8 (0 + 1)) with 1. change (Z.to_nat 1) with 1%nat.
  unfold is_int16 in Hx, Hy.
  cbn [sum_loop lookup list_lookup mbind option_bind].
  rewrite (int_of_Some (0 + x)) by (unfold INT_MIN, INT_MAX; lia).
  cbn [mbind option_bind].
  rewrite (int_of_Some (0 + y)) by (unfold INT_MIN, INT_MAX; lia).
  cbn [mbind option_bind].
  unfold bind at 1, defined at 1. cbv iota beta.
  unfold sdiv. change (1 =? 0) with false. cbv iota.
  rewrite !Z.quot_1_r, !Z.add_0_l.
  rewrite !int_of_Some by (unfold INT_MIN, INT_MAX; lia).
  unfold bind at 1, defined at 1.
  unfold bind at 1, defined at 1.
  rewrite !to_int16_id by assumption.
  reflexivity.
Qed.

(** ** The variance gate is defined on every batch the sampler delivers *)

Lemma median_filter_batch (data : list Z) :
  length data = XPT2046_READ_SAMPLES ->
  exists m, median_filter data XPT2046_READ_SAMPLES = Some m /\ m ∈ data.
Proof.
  intros Hlen.
  replace (median_filter data XPT2046_READ_SAMPLES)
    with (median_filter data (length data)) by (rewrite Hlen; reflexivity).
  rewrite median_filter_sorted by lia.
  destruct (bubble_sort_sorts data) as [_ Hp].
  destruct (lookup_lt_is_Some_2 (bubble_sort data (length data))
              (length data / 2)%nat) as [m Hm].
  { rewrite (Permutation_length Hp), Hlen. unfold XPT2046_READ_SAMPLES.
    simpl. lia. }
  exists m. split; [exact Hm|].
  rewrite <- Hp. eapply list_elem_of_lookup_2. exact Hm.
Qed.

Lemma sdiv_nonneg (a b : Z) :
  0 < b -> 0 <= a <= INT_MAX -> sdiv a b = Some (a / b).
Proof.
  intros Hb Ha. unfold sdiv.
  destruct (Z.eqb_spec b 0); [lia|].
  rewrite Z.quot_div_nonneg by lia.
  apply int_of_Some. unfold INT_MIN, INT_MAX in *.
  pose proof (Z.div_pos a b). pose proof (Z.div_le_upper_bound a b a).
  split; [lia|]. assert (a / b <= a) by (apply Z.div_le_upper_bound; nia). lia.
Qed.

Lemma sq_dev_sum_bound (m : Z) (l : list Z) :
  is_sample m -> Forall is_sample l ->
  0 <= sq_dev_sum m l <= Z.of_nat (length l) * 67092481.
Proof.
  intros Hm Hl. induction Hl as [|v l Hv _ IH]; simpl sq_dev_sum.
  - simpl. lia.
  - unfold is_sample in *.
    assert (Hsq : forall d, -8191 <= d <= 8191 -> 0 <= d * d <= 67092481).
    { intros d Hd. split; [apply Z.square_nonneg|].
      destruct (Z.le_ge_cases 0 d); nia. }
    pose proof (Hsq (v - m) ltac:(lia)).
    cbn [length]. lia.
Qed.

Lemma deviation_loop_sum (n : nat) :
  forall (i : nat) (xs ys : list Z) (x y sx sy : Z),
    (i + n <= length xs)%nat -> (i + n <= length ys)%nat -> (i + n <= 7)%nat ->
    Forall is_sample xs -> Forall is_sample ys ->
    is_sample x -> is_sample y ->
    0 <= sx <= Z.of_nat i * 67092481 -> 0 <= sy <= Z.of_nat i * 67092481 ->
    deviation_loop n i xs ys x y sx sy =
    Some (sx + sq_dev_sum x (take n (drop i xs)),
          sy + sq_dev_sum y (take n (drop i ys))).
Proof.
  induction n as [|n IH]; intros i xs ys x y sx sy Hx Hy Hcap Hfx Hfy Hmx Hmy Hsx Hsy.
  - simpl. rewrite !Z.add_0_r. reflexivity.
  - destruct (lookup_lt_is_Some_2 xs i) as [xi Hxi]; [lia|].
    destruct (lookup_lt_is_Some_2 ys i) as [yi Hyi]; [lia|].
    pose proof (Forall_lookup_1 is_sample xs i xi Hfx Hxi) as Hrx.
    pose proof (Forall_lookup_1 is_sample ys i yi Hfy Hyi) as Hry.
    rewrite (drop_S xs xi i Hxi), (drop_S ys yi i Hyi).
    cbn [take sq_dev_sum foldr].
    fold (sq_dev_sum x (take n (drop (S i) xs))).
    fold (sq_dev_sum y (take n (drop (S i) ys))).
    unfold is_sample in Hrx, Hry, Hmx, Hmy.
    assert (Hdx : to_int16 (xi - x) = xi - x)
      by (apply to_int16_id; unfold is_int16; lia).
    assert (Hdy : to_int16 (yi - y) = yi - y)
      by (apply to_int16_id; unfold is_int16; lia).
    assert (Hsq : forall d, -8191 <= d <= 8191 -> 0 <= d * d <= 67092481).
    { intros d Hd. split; [apply Z.square_nonneg|].
      destruct (Z.le_ge_cases 0 d); nia. }
    pose proof (Hsq (xi - x) ltac:(lia)) as Hqx.
    pose proof (Hsq (yi - y) ltac:(lia)) as Hqy.
    cbn [deviation_loop]. rewrite Hxi, Hyi. cbn [mbind option_bind].
    rewrite Hdx, Hdy.
    rewrite (int_of_Some ((xi - x) * (xi - x))) by (unfold INT_MIN, INT_MAX; lia).
    cbn [mbind option_bind].
    rewrite (int_of_Some (sx + _)) by (unfold INT_MIN, INT_MAX; lia).
    cbn [mbind option_bind].
    rewrite (int_of_Some ((yi - y) * (yi - y))) by (unfold INT_MIN, INT_MAX; lia).
    cbn [mbind option_bind].
    rewrite (int_of_Some (sy + _)) by (unfold INT_MIN, INT_MAX; lia).
    cbn [mbind option_bind].
    rewrite IH by (assumption || unfold is_sample || lia); try (unfold is_sample; lia).
    f_equal. f_equal; lia.
Qed.

(** The verdict of the gate on a batch of seven samples per axis: the
    medians, and the test of the two variances after their conversion to
    [int16_t]. *)
Lemma filter_batch_verdict (xs ys : list Z) :
  length xs = XPT2046_READ_SAMPLES -> length ys = XPT2046_READ_SAMPLES ->
  Forall is_sample xs -> Forall is_sample ys ->
  exists x y : Z,
    median_filter xs XPT2046_READ_SAMPLES = Some x /\ x ∈ xs /\
    median_filter ys XPT2046_READ_SAMPLES = Some y /\ y ∈ ys /\
    filter_batch xs ys =
    Some (negb ((to_int16 (variance x xs) >? 10000) ||
                (to_int16 (variance y ys) >? 10000)), x, y).
Proof.
  intros Hlx Hly Hfx Hfy.
  destruct (median_filter_batch xs Hlx) as (x & Hx & Hxin).
  destruct (median_filter_batch ys Hly) as (y & Hy & Hyin).
  pose proof (proj1 (Forall_forall is_sample xs) Hfx x Hxin) as Hsx.
  pose proof (proj1 (Forall_forall is_sample ys) Hfy y Hyin) as Hsy.
  exists x, y. repeat (split; [assumption|]).
  pose proof (sq_dev_sum_bound x xs Hsx Hfx) as Hbx.
  pose proof (sq_dev_sum_bound y ys Hsy Hfy) as Hby.
  unfold filter_batch. rewrite Hx, Hy. cbn [mbind option_bind].
  unfold variance. rewrite Hlx, Hly in *. unfold XPT2046_READ_SAMPLES in *.
  rewrite (deviation_loop_sum 7 0 xs ys x y 0 0)
    by (assumption || lia).
  rewrite !drop_0, !Z.add_0_l, !take_ge by lia.
  cbn [mbind option_bind]. change (Z.of_nat 7) with 7 in *.
  rewrite !sdiv_nonneg by (unfold INT_MAX; lia).
  cbn [mbind option_bind].
  destruct (_ || _); reflexivity.
Qed.

(** As long as neither variance reaches 2^15 the conversion is harmless and
    the gate accepts exactly the batches whose two variances are within
    10000. *)
Lemma filter_batch_exact_below_wrap (xs ys : list Z) :
  length xs = XPT2046_READ_SAMPLES -> length ys = XPT2046_READ_SAMPLES ->
  Forall is_sample xs -> Forall is_sample ys ->
  exists (ok : bool) (x y : Z),
    filter_batch xs ys = Some (ok, x, y) /\
    (variance x xs <= 32767 -> variance y ys <= 32767 ->
     (ok = true <-> variance x xs <= 10000 /\ variance y ys <= 10000)).
Proof.
  intros Hlx Hly Hfx Hfy.
  destruct (filter_batch_verdict xs ys Hlx Hly Hfx Hfy)
    as (x & y & _ & Hxin & _ & Hyin & Hrun).
  eexists _, x, y. split; [exact Hrun|].
  intros Hvx Hvy.
  pose proof (proj1 (Forall_forall is_sample xs) Hfx x Hxin) as Hsx.
  pose proof (proj1 (Forall_forall is_sample ys) Hfy y Hyin) as Hsy.
  pose proof (sq_dev_sum_bound x xs Hsx Hfx) as Hbx.
  pose proof (sq_dev_sum_bound y ys Hsy Hfy) as Hby.
  assert (0 <= variance x xs) by (apply Z.div_pos; [lia | rewrite Hlx; reflexivity]).
  assert (0 <= variance y ys) by (apply Z.div_pos; [lia | rewrite Hly; reflexivity]).
  rewrite !to_int16_id by (unfold is_int16; lia).
  destruct (Z.gtb_spec (variance x xs) 10000);
    destruct (Z.gtb_spec (variance y ys) 10000); simpl; split;
    try discriminate; try lia; auto.
Qed.

(** Every batch of seven samples gets a verdict, and the medians are
    samples of the batch. *)
Lemma filter_batch_defined (xs ys : list Z) :
  length xs = XPT2046_READ_SAMPLES -> length ys = XPT2046_READ_SAMPLES ->
  Forall is_sample xs -> Forall is_sample ys ->
  exists (ok : bool) (x y : Z),
    filter_batch xs ys = Some (ok, x, y) /\ x ∈ xs /\ y ∈ ys.
Proof.
  intros Hlx Hly Hfx Hfy.
  destruct (filter_batch_verdict xs ys Hlx Hly Hfx Hfy)
    as (x & y & _ & Hxin & _ & Hyin & Hrun).
  eexists _, x, y. split; [exact Hrun|]. split; assumption.
Qed.

(** A batch of seven equal samples on each axis passes the gate. *)
Lemma filter_batch_constant (v w : Z) :
  filter_batch (replicate XPT2046_READ_SAMPLES v)
               (replicate XPT2046_READ_SAMPLES w) = Some (true, v, w).
Proof.
  destruct (median_filter_batch (replicate XPT2046_READ_SAMPLES v))
    as (mx & Hmx & Hinx); [apply length_replicate|].
  destruct (median_filter_batch (replicate XPT2046_READ_SAMPLES w))
    as (my & Hmy & Hiny); [apply length_replicate|].
  apply elem_of_replicate in Hinx as [-> _].
  apply elem_of_replicate in Hiny as [-> _].
  unfold filter_batch. rewrite Hmx, Hmy.
  unfold XPT2046_READ_SAMPLES.
  cbn [mbind option_bind replicate deviation_loop lookup list_lookup].
  rewrite !Z.sub_diag. reflexivity.
Qed.

(** ** [XPT2046_Read] is defined on every well-formed state *)

Lemma zeroed_int16 : Forall is_int16 zeroed.
Proof. repeat constructor; unfold is_int16; lia. Qed.

Lemma to_uint8_range (v : Z) : is_uint8 (to_uint8 v).
Proof.
  unfold is_uint8, to_uint8. pose proof (Z.mod_pos_bound v 256). lia.
Qed.

Lemma is_uint8_0 : is_uint8 0.
Proof. unfold is_uint8. lia. Qed.

Lemma is_int16_m1 : is_int16 (-1).
Proof. unfold is_int16. lia. Qed.

(** Clearing the history gives well-formed buffers, whatever was there. *)
Lemma buffers_ok_cleared (s : xpt2046) :
  avg_buf_x s = zeroed -> avg_buf_y s = zeroed -> avg_count s = 0 ->
  buffers_ok s.
Proof.
  intros Hx Hy Hc. unfold buffers_ok. rewrite Hx, Hy, Hc.
  repeat split; try apply zeroed_int16; simpl; lia.
Qed.

Lemma state_ok_intro (s : xpt2046) :
  buffers_ok s -> is_int16 (last_valid_x s) -> is_int16 (last_valid_y s) ->
  is_uint8 (invalid_count s) -> state_ok s.
Proof. unfold state_ok. auto. Qed.

Lemma jump_check_defined (cx cy : Z) (s : xpt2046) :
  state_ok s -> 0 <= cx <= 32767 -> 0 <= cy <= 32767 ->
  exists (keep : bool) (s' : xpt2046),
    jump_check cx cy s = Some (keep, s') /\ state_ok s' /\
    calibration s' = calibration s /\
    screen_width s' = screen_width s /\
    screen_height s' = screen_height s.
Proof.
  intros Hok Hcx Hcy.
  pose proof Hok as (Hbuf & Hlvx & Hlvy & Hic).
  pose proof (to_uint8_range (invalid_count s + 1)) as Hinc.
  destruct (Z.geb_spec (last_valid_x s) 0) as [Hlx|Hlx];
    [destruct (Z.geb_spec (last_valid_y s) 0) as [Hly|Hly]|].
  - assert (Hmax : distance_sq cx cy (last_valid_x s) (last_valid_y s) <= INT_MAX).
    { unfold distance_sq, INT_MAX. unfold is_int16 in Hlvx, Hlvy.
      assert (Hsq : forall d, -32767 <= d <= 32767 -> d * d <= 1073676289).
      { intros d Hd. destruct (Z.le_ge_cases 0 d); nia. }
      pose proof (Hsq (cx - last_valid_x s) ltac:(lia)).
      pose proof (Hsq (cy - last_valid_y s) ltac:(lia)). lia. }
    destruct (Z.le_gt_cases
                (distance_sq cx cy (last_valid_x s) (last_valid_y s))
                (XPT2046_JUMP_THRESHOLD * XPT2046_JUMP_THRESHOLD)) as [Hnear|Hfar].
    + rewrite (jump_check_near cx cy s Hlx Hly Hnear).
      eexists _, _. split; [reflexivity|].
      split; [|auto].
      apply state_ok_intro; [exact Hbuf | exact Hlvx | exact Hlvy | exact is_uint8_0].
    + destruct (Z.lt_ge_cases (to_uint8 (invalid_count s + 1))
                  XPT2046_MAX_INVALID_SAMPLES) as [Hbelow|Hceil].
      * rewrite (jump_check_far_below cx cy s Hlx Hly) by (lia || assumption).
        eexists _, _. split; [reflexivity|].
        split; [|auto].
        apply state_ok_intro; [exact Hbuf | exact Hlvx | exact Hlvy | exact Hinc].
      * rewrite (jump_check_far_ceiling cx cy s Hlx Hly) by (lia || assumption).
        eexists _, _. split; [reflexivity|].
        split; [|auto].
        apply state_ok_intro;
          [apply buffers_ok_cleared; reflexivity
          | exact Hlvx | exact Hlvy | exact is_uint8_0].
  - exists true, s. split; [|auto].
    unfold jump_check, bind, get.
    destruct (Z.geb_spec (last_valid_x s) 0); [|lia].
    destruct (Z.geb_spec (last_valid_y s) 0); [lia | reflexivity].
  - exists true, s. split; [|auto].
    unfold jump_check, bind, get.
    destruct (Z.geb_spec (last_valid_x s) 0); [lia | reflexivity].
Qed.

(** C-level well-formedness is an invariant of [XPT2046_Read], and on a
    well-formed state with a sane configuration the call has no undefined
    behaviour: it returns. *)
Theorem Read_defined (spi : nat -> Z -> Z * Z) (x y : Z) (s : xpt2046) :
  state_ok s -> config_ok s ->
  exists (ok : bool) (p : Z * Z) (s' : xpt2046),
    XPT2046_Read spi x y s = Some ((ok, p), s') /\
    state_ok s' /\ config_ok s'.
Proof.
  intros Hok Hcfg.
  pose proof Hok as (Hbuf & Hlvx & Hlvy & Hic).
  pose proof Hcfg as (Hc1 & Hc2 & Hc3 & Hc4 & Hc5 & Hc6).
  unfold XPT2046_Read. unfold bind at 1. rewrite IsPressed_run.
  destruct (if _ <? 50 then false else _); cbn [negb].
  - unfold bind at 1. rewrite ReadFiltered_run.
    cbn [spi_count set_spi_count].
    destruct (filter_batch_defined
                (map (fun i : nat => reading spi (S (S (spi_count s)) + 2 * i) CMD_X_READ)
                     (seq 0 XPT2046_READ_SAMPLES))
                (map (fun i : nat => reading spi (S (S (spi_count s)) + 2 * i + 1) CMD_Y_READ)
                     (seq 0 XPT2046_READ_SAMPLES)))
      as (ok & mx & my & Hfb & _ & _).
    { rewrite length_map, length_seq. reflexivity. }
    { rewrite length_map, length_seq. reflexivity. }
    { apply Forall_map, Forall_forall. intros i _. apply reading_range. }
    { apply Forall_map, Forall_forall. intros i _. apply reading_range. }
    rewrite Hfb.
    set (s2 := set_spi_count (S (S (spi_count s)) + 2 * XPT2046_READ_SAMPLES)
                 (set_spi_count (S (S (spi_count s))) s)).
    cbv beta iota.
    destruct ok; cbn [negb].
    + destruct (ApplyCalibration_run mx my s2 Hc1 Hc2 Hc3 Hc4 Hc5 Hc6)
        as (px & py & Hcal & Hpx & Hpy & _).
      change (screen_width s2) with (screen_width s) in Hpx.
      change (screen_height s2) with (screen_height s) in Hpy.
      unfold bind at 1. rewrite Hcal.
      destruct (jump_check_defined px py s2)
        as (keep & s3 & Hj & Hok3 & Hk1 & Hk2 & Hk3);
        [exact Hok | lia | lia |].
      unfold bind at 1. rewrite Hj.
      assert (Hcfg3 : config_ok s3).
      { unfold config_ok. rewrite Hk1, Hk2, Hk3. exact Hcfg. }
      destruct keep; cbn [negb].
      * destruct Hok3 as (Hbuf3 & Hlvx3 & Hlvy3 & Hic3).
        destruct (Average_ok px py s3 Hbuf3)
          as (ax & ay & bx' & by' & n & Hav & Hax & Hay & Hbuf4);
          [unfold is_int16; lia | unfold is_int16; lia |].
        unfold bind at 1. rewrite Hav.
        eexists _, _, _. split; [reflexivity|].
        split; [|exact Hcfg3].
        apply state_ok_intro; [exact Hbuf4 | exact Hax | exact Hay | exact Hic3].
      * eexists _, _, _. split; [reflexivity|]. split; assumption.
    + pose proof (to_uint8_range (invalid_count s2 + 1)) as Hinc.
      unfold bind at 1, get at 1. unfold bind at 1, modify at 1.
      unfold bind at 1, get at 1.
      cbn [invalid_count set_invalid_count].
      destruct (_ >=? _).
      * eexists _, _, _. split; [reflexivity|]. split; [|exact Hcfg].
        apply state_ok_intro;
          [| exact is_int16_m1 | exact is_int16_m1 | exact Hinc].
        destruct Hbuf as (? & ? & ? & ? & ?).
        unfold buffers_ok. simpl. repeat split; try assumption; lia.
      * eexists _, _, _. split; [reflexivity|]. split; [|exact Hcfg].
        apply state_ok_intro; [exact Hbuf | exact Hlvx | exact Hlvy | exact Hinc].
  - eexists _, _, _. split; [reflexivity|]. split; [|exact Hcfg].
    apply state_ok_intro;
      [apply buffers_ok_cleared; reflexivity
      | exact is_int16_m1 | exact is_int16_m1 | exact is_uint8_0].
Qed.

Lemma initial_state_ok : state_ok initial_state /\ config_ok initial_state.
Proof.
  split.
  - apply state_ok_intro;
      [apply buffers_ok_cleared; reflexivity
      | exact is_int16_m1 | exact is_int16_m1 | exact is_uint8_0].
  - unfold config_ok. simpl.
    unfold XPT2046_X_MIN, XPT2046_X_MAX, XPT2046_Y_MIN, XPT2046_Y_MAX,
      ST7789_WIDTH, ST7789_HEIGHT. lia.
Qed.

(** ** Jump rejection inside [XPT2046_Read] *)

(** The two gates and the mapper leave the tracking state alone: only the
    exchange counter moves, and the calibrated point is a pair of
    [int16_t] values. *)
Lemma calibrated_sample_state (spi : nat -> Z -> Z * Z) (s s2 : xpt2046)
    (cx cy : Z) :
  calibrated_sample spi s cx cy s2 ->
  s2 = set_spi_count (S (S (spi_count s)) + 2 * XPT2046_READ_SAMPLES) s /\
  is_int16 cx /\ is_int16 cy.
Proof.
  intros (s1 & rx & ry & Hp & Hf & Hc).
  rewrite IsPressed_run in Hp. injection Hp as _ <-.
  rewrite ReadFiltered_run in Hf.
  destruct (filter_batch _ _) as [r|]; [|discriminate].
  injection Hf as _ <-.
  split; [reflexivity|].
  destruct (ApplyCalibration_int16 _ _ _ _ _ _ Hc) as (Hx & Hy & _). auto.
Qed.

(** C5 (amended): with a stored last valid point, a calibrated point whose
    squared distance to it is at most the threshold squared (80 * 80) is
    accepted, [XPT2046_Read] returning true; a point whose squared distance
    is larger, already at 80 * 80 + 1, is rejected, [XPT2046_Read] returning
    false with [invalid_count] one higher and the reference kept, as long as
    this rejection leaves [invalid_count] below the ceiling. *)
Theorem jump_boundary_exclusive (spi : nat -> Z -> Z * Z) (x y : Z)
    (s s2 : xpt2046) (cx cy : Z) :
  calibrated_sample spi s cx cy s2 ->
  0 <= last_valid_x s -> 0 <= last_valid_y s ->
  buffers_ok s ->
  let d2 := distance_sq cx cy (last_valid_x s) (last_valid_y s) in
  (d2 <= XPT2046_JUMP_THRESHOLD * XPT2046_JUMP_THRESHOLD ->
   exists (p : Z * Z) (s' : xpt2046),
     XPT2046_Read spi x y s = Some ((true, p), s') /\ invalid_count s' = 0) /\
  (XPT2046_JUMP_THRESHOLD * XPT2046_JUMP_THRESHOLD < d2 <= INT_MAX ->
   0 <= invalid_count s < XPT2046_MAX_INVALID_SAMPLES - 1 ->
   exists s' : xpt2046,
     XPT2046_Read spi x y s = Some ((false, (x, y)), s') /\
     invalid_count s' = invalid_count s + 1 /\
     last_valid_x s' = last_valid_x s /\
     last_valid_y s' = last_valid_y s).
Proof.
  intros Hcal Hlx Hly Hbuf d2.
  destruct (calibrated_sample_state _ _ _ _ _ Hcal) as (Hs2 & Hcx & Hcy).
  destruct Hcal as (s1 & rx & ry & Hp & Hf & Hc).
  rewrite (Read_run spi x y s s1 s2 s2 rx ry cx cy Hp Hf Hc).
  assert (Hlx2 : 0 <= last_valid_x s2) by (rewrite Hs2; exact Hlx).
  assert (Hly2 : 0 <= last_valid_y s2) by (rewrite Hs2; exact Hly).
  assert (Hd2 : distance_sq cx cy (last_valid_x s2) (last_valid_y s2) = d2)
    by (rewrite Hs2; reflexivity).
  assert (Hic : invalid_count s2 = invalid_count s) by (rewrite Hs2; reflexivity).
  split.
  - intros Hnear.
    unfold bind at 1.
    rewrite (jump_check_near cx cy s2 Hlx2 Hly2) by (rewrite Hd2; exact Hnear).
    cbn [negb].
    destruct (Average_ok cx cy (set_invalid_count 0 s2))
      as (ax & ay & bx' & by' & n & Hav & _ & _ & _); try assumption.
    { rewrite Hs2. exact Hbuf. }
    unfold bind at 1. rewrite Hav.
    eexists _, _. split; reflexivity.
  - intros Hfar Hcount.
    unfold XPT2046_MAX_INVALID_SAMPLES in Hcount.
    assert (Hinc : to_uint8 (invalid_count s2 + 1) = invalid_count s + 1).
    { rewrite Hic. unfold to_uint8. apply Z.mod_small. lia. }
    unfold bind at 1.
    rewrite (jump_check_far_below cx cy s2 Hlx2 Hly2)
      by (rewrite ?Hd2, ?Hinc; unfold XPT2046_MAX_INVALID_SAMPLES; lia).
    cbn [negb]. rewrite Hinc.
    eexists. split; [reflexivity|].
    rewrite Hs2. repeat split; reflexivity.
Qed.

Lemma tracking_state_buffers_ok (k : Z) : buffers_ok (tracking_state k).
Proof.
  unfold buffers_ok, XPT2046_AVG_SAMPLES. simpl.
  assert (H0 : is_int16 0) by (unfold is_int16; lia).
  assert (H100 : is_int16 100) by (unfold is_int16; lia).
  split; [reflexivity|]. split; [reflexivity|].
  split; [|split; [|lia]]; repeat (constructor; [assumption|]); constructor.
Qed.

Lemma jump_boundary_exclusive_witness :
  (exists (p : Z * Z) (s' : xpt2046),
     XPT2046_Read (steady_bus 100 700 2943 1370) 7 9 (tracking_state 0) =
       Some ((true, p), s') /\ invalid_count s' = 0) /\
  (exists s' : xpt2046,
     XPT2046_Read (steady_bus 100 700 2943 1382) 7 9 (tracking_state 0) =
       Some ((false, (7, 9)), s') /\
     invalid_count s' = 0 + 1 /\
     last_valid_x s' = 100 /\ last_valid_y s' = 100).
Proof.
  split.
  - apply (jump_boundary_exclusive (steady_bus 100 700 2943 1370) 7 9
             (tracking_state 0) (set_spi_count 16 (tracking_state 0)) 180 100).
    + exists (set_spi_count 2 (tracking_state 0)), 2943, 1370.
      split; [|split]; vm_compute; reflexivity.
    + simpl; lia.
    + simpl; lia.
    + apply tracking_state_buffers_ok.
    + unfold distance_sq, XPT2046_JUMP_THRESHOLD; simpl; lia.
  - apply (jump_boundary_exclusive (steady_bus 100 700 2943 1382) 7 9
             (tracking_state 0) (set_spi_count 16 (tracking_state 0)) 180 101).
    + exists (set_spi_count 2 (tracking_state 0)), 2943, 1382.
      split; [|split]; vm_compute; reflexivity.
    + simpl; lia.
    + simpl; lia.
    + apply tracking_state_buffers_ok.
    + unfold distance_sq, XPT2046_JUMP_THRESHOLD, INT_MAX; simpl; lia.
    + simpl; unfold XPT2046_MAX_INVALID_SAMPLES; lia.
Defined.

(** C5 as written fails when the rejection is the one that brings
    [invalid_count] to the ceiling: from the reference (100, 100) with two
    rejections counted, the point (180, 101), at squared distance
    80 * 80 + 1, is accepted and [XPT2046_Read] returns true. *)
Lemma jump_accepted_at_ceiling :
  distance_sq 180 101 100 100 = 80 * 80 + 1 /\
  invalid_count (tracking_state 2) = 2 /\
  exists s' : xpt2046,
    XPT2046_Read (steady_bus 100 700 2943 1382) 7 9 (tracking_state 2) =
    Some ((true, (180, 101)), s').
Proof.
  split; [reflexivity|]. split; [reflexivity|].
  eexists. vm_compute. reflexivity.
Qed.

(** C4 (amended): when a jump is detected and its increment takes
    [invalid_count] to the ceiling, the sample is not rejected.  The
    smoothing history and [invalid_count] are cleared, [XPT2046_Read]
    returns true with the calibrated point itself (the only entry of the
    new history), and that point replaces the stale reference: the
    reference is overwritten, not cleared. *)
Theorem ceiling_jump_restarts_touch (spi : nat -> Z -> Z * Z) (x y : Z)
    (s s2 : xpt2046) (cx cy : Z) :
  calibrated_sample spi s cx cy s2 ->
  0 <= last_valid_x s -> 0 <= last_valid_y s ->
  XPT2046_JUMP_THRESHOLD * XPT2046_JUMP_THRESHOLD <
    distance_sq cx cy (last_valid_x s) (last_valid_y s) <= INT_MAX ->
  invalid_count s + 1 = XPT2046_MAX_INVALID_SAMPLES ->
  exists s' : xpt2046,
    XPT2046_Read spi x y s = Some ((true, (cx, cy)), s') /\
    invalid_count s' = 0 /\
    avg_count s' = 1 /\
    avg_buf_x s' = cx :: replicate 9 0 /\
    avg_buf_y s' = cy :: replicate 9 0 /\
    last_valid_x s' = cx /\ last_valid_y s' = cy.
Proof.
  intros Hcal Hlx Hly Hfar Hcount.
  destruct (calibrated_sample_state _ _ _ _ _ Hcal) as (Hs2 & Hcx & Hcy).
  destruct Hcal as (s1 & rx & ry & Hp & Hf & Hc).
  rewrite (Read_run spi x y s s1 s2 s2 rx ry cx cy Hp Hf Hc).
  assert (Hlx2 : 0 <= last_valid_x s2) by (rewrite Hs2; exact Hlx).
  assert (Hly2 : 0 <= last_valid_y s2) by (rewrite Hs2; exact Hly).
  assert (Hd2 : distance_sq cx cy (last_valid_x s2) (last_valid_y s2) =
                distance_sq cx cy (last_valid_x s) (last_valid_y s))
    by (rewrite Hs2; reflexivity).
  assert (Hic : invalid_count s2 = invalid_count s) by (rewrite Hs2; reflexivity).
  assert (Hinc : to_uint8 (invalid_count s2 + 1) = XPT2046_MAX_INVALID_SAMPLES).
  { rewrite Hic, Hcount. reflexivity. }
  unfold bind at 1.
  rewrite (jump_check_far_ceiling cx cy s2 Hlx2 Hly2)
    by (rewrite ?Hd2, ?Hinc; lia).
  cbn [negb].
  unfold bind at 1. rewrite Average_fresh by (reflexivity || assumption).
  eexists. split; [reflexivity|]. repeat split; reflexivity.
Qed.

Lemma ceiling_jump_restarts_touch_witness :
  exists s' : xpt2046,
    XPT2046_Read (steady_bus 100 700 2943 1382) 7 9 (tracking_state 2) =
      Some ((true, (180, 101)), s') /\
    invalid_count s' = 0 /\
    avg_count s' = 1 /\
    avg_buf_x s' = 180 :: replicate 9 0 /\
    avg_buf_y s' = 101 :: replicate 9 0 /\
    last_valid_x s' = 180 /\ last_valid_y s' = 101.
Proof.
  apply (ceiling_jump_restarts_touch (steady_bus 100 700 2943 1382) 7 9
           (tracking_state 2) (set_spi_count 16 (tracking_state 2)) 180 101).
  - exists (set_spi_count 2 (tracking_state 2)), 2943, 1382.
    split; [|split]; vm_compute; reflexivity.
  - simpl; lia.
  - simpl; lia.
  - unfold distance_sq, XPT2046_JUMP_THRESHOLD, INT_MAX; simpl; lia.
  - reflexivity.
Defined.

(** C4 as written fails: the jump that brings [invalid_count] to the
    ceiling does not clear the reference point.  From the reference
    (100, 100) with two rejections counted, the jump to (180, 101) makes
    [XPT2046_Read] return true, and the reference afterwards is (180, 101),
    not the cleared value (-1, -1). *)
Lemma ceiling_jump_keeps_a_reference :
  exists s' : xpt2046,
    XPT2046_Read (steady_bus 100 700 2943 1382) 7 9 (tracking_state 2) =
      Some ((true, (180, 101)), s') /\
    last_valid_x s' = 180 /\ last_valid_y s' = 101 /\
    last_valid_x s' <> -1 /\ last_valid_y s' <> -1.
Proof.
  eexists. split; [vm_compute; reflexivity|].
  repeat split; discriminate.
Qed.

(** ** Counting invalid samples *)

(** C2 does not hold of the code.  On the variance-gate path of
    [XPT2046_Read] the counter is incremented and never reset: four
    successive reads of a pressed panel with an unreliable batch leave
    [invalid_count] at 4, above the ceiling of 3.  The jump path of the
    same function does set it back to 0 at the ceiling.  Nor does the first
    accepted sample of a touch reset the counter: after one unreliable
    batch, the next read is accepted and leaves [invalid_count] at 1. *)
Theorem invalid_count_passes_ceiling :
  (exists s' : xpt2046,
     poll noisy_bus 4 initial_state = Some (tt, s') /\
     invalid_count s' = 4 /\
     XPT2046_MAX_INVALID_SAMPLES < invalid_count s') /\
  (exists s' : xpt2046,
     (XPT2046_Read glitch_bus 0 0 ;; XPT2046_Read glitch_bus 0 0) portrait_state =
       Some ((true, (0, 0)), s') /\
     invalid_count s' = 1).
Proof.
  split; eexists; (split; [vm_compute; reflexivity|]).
  - split; reflexivity.
  - reflexivity.
Qed.

(** ** Variance gate *)

(** C6 does not hold of the code.  The quotient of the deviation sum is
    stored in an [int16_t]: for the X batch 0, 0, 0, 0, 4000, 4000, 4000
    (median 0) the population variance is 6857142, far above 10000, yet it
    wraps to -24138 and the batch is accepted. *)
Theorem variance_gate_wraps :
  variance 0 [0; 0; 0; 0; 4000; 4000; 4000] = 6857142 /\
  to_int16 6857142 = -24138 /\
  filter_batch [0; 0; 0; 0; 4000; 4000; 4000] [0; 0; 0; 0; 0; 0; 0] =
    Some (true, 0, 0) /\
  XPT2046_ReadFiltered split_bus initial_state =
    Some ((true, 0, 0), set_spi_count 14 initial_state).
Proof. repeat split; vm_compute; reflexivity. Qed.
